(** * Work-projects REST service: a shallow embedding and its properties

    The development follows the three layers of the repository:
    - [backend/models.py]  : the pydantic models (validation layer);
    - [database/db_utils.py] : connection-per-call access to the single
      table [work_projects] (persistence layer);
    - [backend/routes.py]  : the six route handlers (API layer).

    Modelling conventions.
    - Text is [string]; every [ascii] stands for one code point below 256,
      so [String.length] is Python's [len] and the order [String.compare]
      is both Python's [str] order and SQLite's BINARY collation.
    - A [datetime.date] is a record (year, month, day) ordered
      lexicographically.  The ISO text [YYYY-MM-DD] that the sqlite3
      adapter stores is order-isomorphic to it, so a stored date is kept
      as a [date].  A timestamp is a number of clock ticks ([Z]).
    - The table is a finite map from the primary key [id] to the other
      columns.
    - Storage failures other than constraint violations (I/O errors, a
      missing file) are outside the model. *)

From Stdlib Require Import ZArith String Ascii List Bool Lia.
From Stdlib Require OrdersEx.
From stdpp Require Import gmap strings list fin_maps sorting.

Local Open Scope string_scope.
Local Open Scope list_scope.
Local Open Scope Z_scope.

(** ** Text primitives of the two runtimes *)

Module Text.

Definition code (c : ascii) : N := N_of_ascii c.

Definition between (lo hi : N) (c : ascii) : bool :=
  ((lo <=? code c) && (code c <=? hi))%N.

(** Python [str.isspace] on one character (code points below 256). *)
Definition py_isspace (c : ascii) : bool :=
  between 9 13 c || between 28 32 c || (code c =? 133)%N || (code c =? 160)%N.

(** Python [str.lower] on one character: [A-Z] and the Latin-1 capitals
    (all of 192..222 but the multiplication sign 215) move up by 32. *)
Definition py_lower_char (c : ascii) : ascii :=
  if between 65 90 c || (between 192 222 c && negb (code c =? 215)%N)
  then ascii_of_N (code c + 32) else c.

(** Python [str.upper] on one character, for the letters whose capital
    is again below 256. *)
Definition py_upper_char (c : ascii) : ascii :=
  if between 97 122 c || (between 224 254 c && negb (code c =? 247)%N)
  then ascii_of_N (code c - 32) else c.

(** SQLite folds case for the 26 ASCII letters only. *)
Definition sqlite_lower_char (c : ascii) : ascii :=
  if between 65 90 c then ascii_of_N (code c + 32) else c.

Fixpoint smap (f : ascii -> ascii) (s : string) : string :=
  match s with
  | EmptyString => EmptyString
  | String c s' => String (f c) (smap f s')
  end.

Definition lower : string -> string := smap py_lower_char.
Definition upper : string -> string := smap py_upper_char.

Definition is_empty (s : string) : bool :=
  match s with EmptyString => true | _ => false end.

(** Python truthiness of an [Optional[str]]: [None] and [''] are falsy. *)
Definition truthy (o : option string) : bool :=
  match o with Some s => negb (is_empty s) | None => false end.

(** [s.split(',')]. *)
Fixpoint split_comma (s : string) : list string :=
  match s with
  | EmptyString => [EmptyString]
  | String c s' =>
      if Ascii.eqb c "," then EmptyString :: split_comma s'
      else match split_comma s' with
           | tok :: rest => String c tok :: rest
           | [] => [String c EmptyString]
           end
  end.

Fixpoint lstrip (s : string) : string :=
  match s with
  | EmptyString => EmptyString
  | String c s' => if py_isspace c then lstrip s' else s
  end.

Fixpoint rstrip (s : string) : string :=
  match s with
  | EmptyString => EmptyString
  | String c s' =>
      let t := rstrip s' in
      if py_isspace c && is_empty t then EmptyString else String c t
  end.

(** [s.strip()]. *)
Definition strip (s : string) : string := rstrip (lstrip s).

(** SQLite's [LIKE] without ESCAPE: [%] matches any run of characters,
    [_] exactly one, every other character itself up to ASCII case. *)
Fixpoint like (pat : string) (s : string) : bool :=
  match pat with
  | EmptyString => is_empty s
  | String p pat' =>
      if Ascii.eqb p "%" then
        (fix star (t : string) : bool :=
           like pat' t ||
           match t with
           | EmptyString => false
           | String _ t' => star t'
           end) s
      else
        match s with
        | EmptyString => false
        | String c s' =>
            (Ascii.eqb p "_" ||
             Ascii.eqb (sqlite_lower_char p) (sqlite_lower_char c))
            && like pat' s'
        end
  end.


End Text.

(** ** Calendar dates *)

Record date := mkdate { year : Z; month : Z; day : Z }.

(** [a < b] on [datetime.date]. *)
Definition date_ltb (a b : date) : bool :=
  (year a <? year b)
  || ((year a =? year b)
      && ((month a <? month b)
          || ((month a =? month b) && (day a <? day b)))).

Definition date_leb (a b : date) : bool := negb (date_ltb b a).

Global Instance date_eq_dec : EqDecision date.
Proof. solve_decision. Defined.

(** ** The data model: one row of [work_projects] *)

(** The columns other than the primary key.  [project_name] and
    [description] are NOT NULL. *)
Record Row := mkRow {
  project_name : string;
  description : string;
  industry : option string;
  start_date : option date;
  end_date : option date;
  tools_used : option string;
  role : option string;
  client_organization : option string;
  client_description : option string;
  created_at : Z;
  updated_at : Z
}.

Global Instance Row_eq_dec : EqDecision Row.
Proof. solve_decision. Defined.

(** [dict(row)] for a [SELECT *]: the key together with the columns. *)
Record Project := mkProject { id : Z; cols : Row }.

Global Instance Project_eq_dec : EqDecision Project.
Proof. solve_decision. Defined.

(** The nine client-settable fields. *)
Inductive field :=
| F_project_name | F_description | F_industry | F_start_date | F_end_date
| F_tools_used | F_role | F_client_organization | F_client_description.

Global Instance field_eq_dec : EqDecision field.
Proof. solve_decision. Defined.

Definition field_name (f : field) : string :=
  match f with
  | F_project_name => "project_name"
  | F_description => "description"
  | F_industry => "industry"
  | F_start_date => "start_date"
  | F_end_date => "end_date"
  | F_tools_used => "tools_used"
  | F_role => "role"
  | F_client_organization => "client_organization"
  | F_client_description => "client_description"
  end.

(** A column value as Python sees it. *)
Inductive value :=
| VNone
| VStr (s : string)
| VDate (d : date).

Definition of_str (o : option string) : value :=
  match o with Some s => VStr s | None => VNone end.

Definition of_date (o : option date) : value :=
  match o with Some d => VDate d | None => VNone end.

Definition get_field (f : field) (r : Row) : value :=
  match f with
  | F_project_name => VStr (project_name r)
  | F_description => VStr (description r)
  | F_industry => of_str (industry r)
  | F_start_date => of_date (start_date r)
  | F_end_date => of_date (end_date r)
  | F_tools_used => of_str (tools_used r)
  | F_role => of_str (role r)
  | F_client_organization => of_str (client_organization r)
  | F_client_description => of_str (client_description r)
  end.

(** ** Validation layer ([backend/models.py]) *)

(** One member of a JSON body (or one keyword argument) before
    validation: the key is absent, [null], a value of the right shape, or
    something the field type cannot take (a number for a string, text that
    is not a date). *)
Inductive json_field (A : Type) :=
| Absent
| JNull
| JVal (a : A)
| JBad.
Arguments Absent {A}.
Arguments JNull {A}.
Arguments JVal {A} a.
Arguments JBad {A}.

Record Payload := mkPayload {
  in_project_name : json_field string;
  in_description : json_field string;
  in_industry : json_field string;
  in_start_date : json_field date;
  in_end_date : json_field date;
  in_tools_used : json_field string;
  in_role : json_field string;
  in_client_organization : json_field string;
  in_client_description : json_field string
}.

(** A validated optional field remembers whether it was set
    ([model_fields_set]): absence is not [None]. *)
Inductive setting (A : Type) :=
| Unset
| SetTo (v : option A).
Arguments Unset {A}.
Arguments SetTo {A} v.

Definition setting_value {A} (s : setting A) : option A :=
  match s with Unset => None | SetTo v => v end.

Module Models.

Definition len_between (lo hi : nat) (s : string) : bool :=
  (lo <=? String.length s)%nat && (String.length s <=? hi)%nat.

(** [str = Field(..., min_length=lo, max_length=hi)]; [None] is failure. *)
Definition required_str (lo hi : nat) (x : json_field string) : option string :=
  match x with
  | JVal s => if len_between lo hi s then Some s else None
  | _ => None
  end.

(** [Optional[T] = Field(None, ...)] with the constraint [ok] on a
    value; [None] is failure. *)
Definition optional {A} (ok : A -> bool) (x : json_field A) : option (setting A) :=
  match x with
  | Absent => Some Unset
  | JNull => Some (SetTo None)
  | JVal a => if ok a then Some (SetTo (Some a)) else None
  | JBad => None
  end.

Definition optional_str (lo hi : nat) := optional (len_between lo hi).
Definition optional_date := optional (fun _ : date => true).

(** The body of both [validate_end_date] validators:
    [if v and start_date and v < start_date: raise ValueError];
    [start_date] is [info.data.get('start_date')].  [None] is the raise. *)
Definition validate_end_date (v : option date) (start_date : option date)
  : option (option date) :=
  match v, start_date with
  | Some e, Some s => if date_ltb e s then None else Some v
  | _, _ => Some v
  end.

(** [info.data.get('start_date')]: the validated value, or [None] when
    the field failed its own validation or is [None]. *)
Definition data_get_start_date (validated : option (setting date)) : option date :=
  match validated with
  | Some s => setting_value s
  | None => None
  end.

(** The [end_date] field: its type validation, then (only for a value
    that was supplied) the [field_validator]. *)
Definition end_date_field (x : json_field date) (start : option (setting date))
  : option (setting date) :=
  match optional_date x with
  | Some (SetTo v) =>
      match validate_end_date v (data_get_start_date start) with
      | Some v' => Some (SetTo v')
      | None => None
      end
  | other => other
  end.

Definition err {A} (f : field) (r : option A) : list string :=
  match r with Some _ => [] | None => [field_name f] end.

(** *** [ProjectBase] / [ProjectCreate] *)

Record ProjectBase := mkProjectBase {
  b_project_name : string;
  b_description : string;
  b_industry : option string;
  b_start_date : option date;
  b_end_date : option date;
  b_tools_used : option string;
  b_role : option string;
  b_client_organization : option string;
  b_client_description : option string
}.

(** Validation of the nine [ProjectBase] fields in declaration order:
    either the list of offending fields or the model. *)
Definition ProjectBase_validate (p : Payload) : list string + ProjectBase :=
  let v1 := required_str 1 200 (in_project_name p) in
  let v2 := required_str 1 2000 (in_description p) in
  let v3 := optional_str 0 100 (in_industry p) in
  let v4 := optional_date (in_start_date p) in
  let v5 := end_date_field (in_end_date p) v4 in
  let v6 := optional_str 0 500 (in_tools_used p) in
  let v7 := optional_str 0 100 (in_role p) in
  let v8 := optional_str 0 200 (in_client_organization p) in
  let v9 := optional_str 0 1000 (in_client_description p) in
  match v1, v2, v3, v4, v5, v6, v7, v8, v9 with
  | Some a1, Some a2, Some a3, Some a4, Some a5, Some a6, Some a7, Some a8, Some a9 =>
      inr {| b_project_name := a1; b_description := a2;
             b_industry := setting_value a3;
             b_start_date := setting_value a4;
             b_end_date := setting_value a5;
             b_tools_used := setting_value a6;
             b_role := setting_value a7;
             b_client_organization := setting_value a8;
             b_client_description := setting_value a9 |}
  | _, _, _, _, _, _, _, _, _ =>
      inl (err F_project_name v1 ++ err F_description v2 ++ err F_industry v3
           ++ err F_start_date v4 ++ err F_end_date v5 ++ err F_tools_used v6
           ++ err F_role v7 ++ err F_client_organization v8
           ++ err F_client_description v9)
  end.

Definition ProjectCreate := ProjectBase.
Definition ProjectCreate_validate := ProjectBase_validate.

(** *** [ProjectUpdate] *)

Record ProjectUpdate := mkProjectUpdate {
  u_project_name : setting string;
  u_description : setting string;
  u_industry : setting string;
  u_start_date : setting date;
  u_end_date : setting date;
  u_tools_used : setting string;
  u_role : setting string;
  u_client_organization : setting string;
  u_client_description : setting string
}.

Definition ProjectUpdate_validate (p : Payload) : list string + ProjectUpdate :=
  let v1 := optional_str 1 200 (in_project_name p) in
  let v2 := optional_str 1 2000 (in_description p) in
  let v3 := optional_str 0 100 (in_industry p) in
  let v4 := optional_date (in_start_date p) in
  let v5 := end_date_field (in_end_date p) v4 in
  let v6 := optional_str 0 500 (in_tools_used p) in
  let v7 := optional_str 0 100 (in_role p) in
  let v8 := optional_str 0 200 (in_client_organization p) in
  let v9 := optional_str 0 1000 (in_client_description p) in
  match v1, v2, v3, v4, v5, v6, v7, v8, v9 with
  | Some a1, Some a2, Some a3, Some a4, Some a5, Some a6, Some a7, Some a8, Some a9 =>
      inr {| u_project_name := a1; u_description := a2; u_industry := a3;
             u_start_date := a4; u_end_date := a5; u_tools_used := a6;
             u_role := a7; u_client_organization := a8;
             u_client_description := a9 |}
  | _, _, _, _, _, _, _, _, _ =>
      inl (err F_project_name v1 ++ err F_description v2 ++ err F_industry v3
           ++ err F_start_date v4 ++ err F_end_date v5 ++ err F_tools_used v6
           ++ err F_role v7 ++ err F_client_organization v8
           ++ err F_client_description v9)
  end.

(** One [field = value] pair of [model_dump(exclude_unset=True)]. *)
Inductive assignment :=
| set_project_name (v : option string)
| set_description (v : option string)
| set_industry (v : option string)
| set_start_date (v : option date)
| set_end_date (v : option date)
| set_tools_used (v : option string)
| set_role (v : option string)
| set_client_organization (v : option string)
| set_client_description (v : option string).

Definition assigned_field (a : assignment) : field :=
  match a with
  | set_project_name _ => F_project_name
  | set_description _ => F_description
  | set_industry _ => F_industry
  | set_start_date _ => F_start_date
  | set_end_date _ => F_end_date
  | set_tools_used _ => F_tools_used
  | set_role _ => F_role
  | set_client_organization _ => F_client_organization
  | set_client_description _ => F_client_description
  end.

Definition assigned_value (a : assignment) : value :=
  match a with
  | set_project_name v | set_description v | set_industry v
  | set_tools_used v | set_role v | set_client_organization v
  | set_client_description v => of_str v
  | set_start_date v | set_end_date v => of_date v
  end.

Definition dump {A} (mk : option A -> assignment) (s : setting A) : list assignment :=
  match s with Unset => [] | SetTo v => [mk v] end.

(** [project.model_dump(exclude_unset=True)], in declaration order. *)
Definition model_dump_exclude_unset (u : ProjectUpdate) : list assignment :=
  dump set_project_name (u_project_name u)
  ++ dump set_description (u_description u)
  ++ dump set_industry (u_industry u)
  ++ dump set_start_date (u_start_date u)
  ++ dump set_end_date (u_end_date u)
  ++ dump set_tools_used (u_tools_used u)
  ++ dump set_role (u_role u)
  ++ dump set_client_organization (u_client_organization u)
  ++ dump set_client_description (u_client_description u).

(** *** [ProjectResponse] *)

Record ProjectResponse := mkProjectResponse {
  r_base : ProjectBase;
  r_id : Z;
  r_created_at : Z;
  r_updated_at : Z
}.

Definition kw {A} (o : option A) : json_field A :=
  match o with Some a => JVal a | None => JNull end.

(** The keyword arguments when a fetched row is unpacked into
    [ProjectResponse]. *)
Definition kwargs (r : Row) : Payload :=
  {| in_project_name := JVal (project_name r);
     in_description := JVal (description r);
     in_industry := kw (industry r);
     in_start_date := kw (start_date r);
     in_end_date := kw (end_date r);
     in_tools_used := kw (tools_used r);
     in_role := kw (role r);
     in_client_organization := kw (client_organization r);
     in_client_description := kw (client_description r) |}.

(** Construction of a [ProjectResponse] from a fetched row (the row is
    unpacked as keyword arguments): the inherited [ProjectBase] fields are
    validated (bounds and the inherited [validate_end_date]); [id] and
    the two timestamps always parse. *)
Definition ProjectResponse_validate (p : Project) : list string + ProjectResponse :=
  match ProjectBase_validate (kwargs (cols p)) with
  | inl errs => inl errs
  | inr b => inr {| r_base := b; r_id := id p;
                    r_created_at := created_at (cols p);
                    r_updated_at := updated_at (cols p) |}
  end.

(** *** [FilterOptions] *)

Record FilterOptions := mkFilterOptions {
  industries : list string;
  clients : list string;
  tools : list string
}.

End Models.

(** ** Exceptions *)

Inductive detail :=
| Invalid_sort_by_field
| Order_must_be_asc_or_desc
| Project_not_found (project_id : Z)
| Failed_to_retrieve_created_project
| Database_error.

Inductive exn :=
| HTTPException (status_code : Z) (d : detail)
| ValidationError (fields : list string)
| IntegrityError
| OperationalError
| TypeError.

Inductive outcome (A : Type) :=
| Return (a : A)
| Raise (e : exn).
Arguments Return {A} a.
Arguments Raise {A} e.

(** ** The storage engine, for the statements the service issues *)

Module Sqlite.
Import Models.

(** One [AND ...] conjunct of the list query, with its bound parameter. *)
Inductive cond :=
| industry_eq (s : string)
| client_organization_eq (s : string)
| tools_used_like (pattern : string)
| start_date_ge (d : date)
| end_date_le (d : date).

(** [SELECT * FROM work_projects ...]. *)
Inductive query :=
| SELECT_by_id (project_id : Z)
| SELECT_where (where_ : list cond) (sort_by order : string).

(** [SELECT DISTINCT col FROM work_projects WHERE col IS NOT NULL AND
    col != ''], with or without [ORDER BY col]. *)
Inductive column_query :=
| DISTINCT_industry
| DISTINCT_client_organization
| DISTINCT_tools_used.

Inductive command :=
| INSERT (p : ProjectCreate)
| UPDATE (sets : list assignment) (project_id : Z)
| DELETE (project_id : Z).

Inductive statement :=
| Query (q : query)
| ColumnQuery (q : column_query)
| Command (c : command).

(** *** What the schema contributes *)

(** Modelled from the spec: [database/schema.sql] is not among the
    sources.  The key is "auto-assigned" (section 3): an INTEGER PRIMARY
    KEY takes one more than the largest key in use, 1 in an empty table. *)
Definition schema_next_id (t : gmap Z Row) : Z :=
  1 + map_fold (fun k _ acc => Z.max k acc) 0 t.

(** Modelled from the spec: [database/schema.sql] is not among the
    sources.  "[created_at] set once at insert" and "[created_at ==
    updated_at] at creation time": both default to the clock reading
    [now] of the insert. *)
Definition schema_new_row (now : Z) (p : ProjectCreate) : Row :=
  {| project_name := b_project_name p;
     description := b_description p;
     industry := b_industry p;
     start_date := b_start_date p;
     end_date := b_end_date p;
     tools_used := b_tools_used p;
     role := b_role p;
     client_organization := b_client_organization p;
     client_description := b_client_description p;
     created_at := now;
     updated_at := now |}.

(** Modelled from the spec: [database/schema.sql] is not among the
    sources.  "a trigger that stamps [updated_at] on every row
    modification": the row gets the clock reading [now] of the update. *)
Definition schema_update_trigger (now : Z) (r : Row) : Row :=
  {| project_name := project_name r;
     description := description r;
     industry := industry r;
     start_date := start_date r;
     end_date := end_date r;
     tools_used := tools_used r;
     role := role r;
     client_organization := client_organization r;
     client_description := client_description r;
     created_at := created_at r;
     updated_at := now |}.

(** Modelled from the spec: [database/schema.sql] is not among the
    sources.  [project_name] and [description] are "required" (section 3),
    taken as NOT NULL: one [col = ?] of an UPDATE that puts NULL there
    violates the constraint ([None]); any other assignment overwrites its
    column. *)
Definition apply_assignment (a : assignment) (r : Row) : option Row :=
  match a with
  | set_project_name None | set_description None => None
  | set_project_name (Some s) =>
      Some (mkRow s (description r) (industry r) (start_date r) (end_date r)
              (tools_used r) (role r) (client_organization r)
              (client_description r) (created_at r) (updated_at r))
  | set_description (Some s) =>
      Some (mkRow (project_name r) s (industry r) (start_date r) (end_date r)
              (tools_used r) (role r) (client_organization r)
              (client_description r) (created_at r) (updated_at r))
  | set_industry v =>
      Some (mkRow (project_name r) (description r) v (start_date r) (end_date r)
              (tools_used r) (role r) (client_organization r)
              (client_description r) (created_at r) (updated_at r))
  | set_start_date v =>
      Some (mkRow (project_name r) (description r) (industry r) v (end_date r)
              (tools_used r) (role r) (client_organization r)
              (client_description r) (created_at r) (updated_at r))
  | set_end_date v =>
      Some (mkRow (project_name r) (description r) (industry r) (start_date r) v
              (tools_used r) (role r) (client_organization r)
              (client_description r) (created_at r) (updated_at r))
  | set_tools_used v =>
      Some (mkRow (project_name r) (description r) (industry r) (start_date r)
              (end_date r) v (role r) (client_organization r)
              (client_description r) (created_at r) (updated_at r))
  | set_role v =>
      Some (mkRow (project_name r) (description r) (industry r) (start_date r)
              (end_date r) (tools_used r) v (client_organization r)
              (client_description r) (created_at r) (updated_at r))
  | set_client_organization v =>
      Some (mkRow (project_name r) (description r) (industry r) (start_date r)
              (end_date r) (tools_used r) (role r) v
              (client_description r) (created_at r) (updated_at r))
  | set_client_description v =>
      Some (mkRow (project_name r) (description r) (industry r) (start_date r)
              (end_date r) (tools_used r) (role r) (client_organization r)
              v (created_at r) (updated_at r))
  end.

Fixpoint apply_assignments (sets : list assignment) (r : Row) : option Row :=
  match sets with
  | [] => Some r
  | a :: sets' =>
      match apply_assignment a r with
      | Some r' => apply_assignments sets' r'
      | None => None
      end
  end.

(** *** Rows, predicates and ordering *)

Definition rows (t : gmap Z Row) : list Project :=
  (fun kr => mkProject (fst kr) (snd kr)) <$> map_to_list t.

Definition on_text (o : option string) (test : string -> bool) : bool :=
  match o with Some x => test x | None => false end.

Definition on_date (o : option date) (test : date -> bool) : bool :=
  match o with Some x => test x | None => false end.

(** A comparison with NULL is not true. *)
Definition holds (r : Row) (c : cond) : bool :=
  match c with
  | industry_eq s => on_text (industry r) (fun x => String.eqb x s)
  | client_organization_eq s =>
      on_text (client_organization r) (fun x => String.eqb x s)
  | tools_used_like pat => on_text (tools_used r) (Text.like pat)
  | start_date_ge d => on_date (start_date r) (fun x => date_leb d x)
  | end_date_le d => on_date (end_date r) (fun x => date_leb x d)
  end.

Inductive key :=
| KNull
| KInt (z : Z)
| KText (s : string)
| KDate (d : date).

Definition ktext (o : option string) : key :=
  match o with Some s => KText s | None => KNull end.

Definition kdate (o : option date) : key :=
  match o with Some d => KDate d | None => KNull end.

(** The column an ORDER BY term names; [None]: no such column. *)
Definition column (name : string) : option (Project -> key) :=
  if String.eqb name "id" then Some (fun p => KInt (id p))
  else if String.eqb name "project_name" then Some (fun p => KText (project_name (cols p)))
  else if String.eqb name "description" then Some (fun p => KText (description (cols p)))
  else if String.eqb name "industry" then Some (fun p => ktext (industry (cols p)))
  else if String.eqb name "start_date" then Some (fun p => kdate (start_date (cols p)))
  else if String.eqb name "end_date" then Some (fun p => kdate (end_date (cols p)))
  else if String.eqb name "tools_used" then Some (fun p => ktext (tools_used (cols p)))
  else if String.eqb name "role" then Some (fun p => ktext (role (cols p)))
  else if String.eqb name "client_organization" then
    Some (fun p => ktext (client_organization (cols p)))
  else if String.eqb name "client_description" then
    Some (fun p => ktext (client_description (cols p)))
  else if String.eqb name "created_at" then Some (fun p => KInt (created_at (cols p)))
  else if String.eqb name "updated_at" then Some (fun p => KInt (updated_at (cols p)))
  else None.

Definition rank (k : key) : Z :=
  match k with KNull => 0 | KInt _ => 1 | KText _ => 2 | KDate _ => 2 end.

(** NULL sorts first, numbers before text, text in BINARY collation. *)
Definition key_leb (a b : key) : bool :=
  match a, b with
  | KInt x, KInt y => x <=? y
  | KText x, KText y => String.leb x y
  | KDate x, KDate y => date_leb x y
  | _, _ => rank a <=? rank b
  end.

Definition ordered (k : Project -> key) (descending : bool) : relation Project :=
  fun a b =>
    (if descending then key_leb (k b) (k a) else key_leb (k a) (k b)) = true.

Global Instance ordered_dec k descending a b : Decision (ordered k descending a b).
Proof. unfold ordered. apply _. Defined.

(** [ASC] / [DESC] after the ORDER BY term; anything else is a syntax
    error ([None]). *)
Definition direction (order : string) : option bool :=
  if String.eqb order "ASC" then Some false
  else if String.eqb order "DESC" then Some true
  else None.

Definition select (q : query) (t : gmap Z Row) : outcome (list Project) :=
  match q with
  | SELECT_by_id pid =>
      Return (match t !! pid with Some r => [mkProject pid r] | None => [] end)
  | SELECT_where where_ sort_by order =>
      match column sort_by, direction order with
      | Some k, Some descending =>
          Return (merge_sort (ordered k descending)
                    (filter (fun p => forallb (holds (cols p)) where_ = true) (rows t)))
      | _, _ => Raise OperationalError
      end
  end.

Definition string_le : relation string := fun a b => String.leb a b = true.

Global Instance string_le_dec a b : Decision (string_le a b).
Proof. unfold string_le. apply _. Defined.

Definition nonempty_values (col : Row -> option string) (t : gmap Z Row) : list string :=
  filter (fun s => Text.is_empty s = false) (omap (fun p => col (cols p)) (rows t)).

Definition select_distinct (q : column_query) (t : gmap Z Row) : list string :=
  match q with
  | DISTINCT_industry =>
      merge_sort string_le (remove_dups (nonempty_values industry t))
  | DISTINCT_client_organization =>
      merge_sort string_le (remove_dups (nonempty_values client_organization t))
  | DISTINCT_tools_used => remove_dups (nonempty_values tools_used t)
  end.

(** The effect of a data-modifying statement: the new table with
    [(lastrowid, rowcount)]. *)
Definition execute (now : Z) (c : command) (t : gmap Z Row)
  : outcome (gmap Z Row * (Z * Z)) :=
  match c with
  | INSERT p =>
      let new_id := schema_next_id t in
      Return (<[new_id := schema_new_row now p]> t, (new_id, 1))
  | UPDATE sets pid =>
      match t !! pid with
      | None => Return (t, (0, 0))
      | Some r =>
          match apply_assignments sets r with
          | Some r' => Return (<[pid := schema_update_trigger now r']> t, (0, 1))
          | None => Raise IntegrityError
          end
      end
  | DELETE pid =>
      match t !! pid with
      | None => Return (t, (0, 0))
      | Some _ => Return (delete pid t, (0, 1))
      end
  end.

End Sqlite.

(** ** Persistence layer ([database/db_utils.py]) *)

(** The database file: the table, and the statements run against it so
    far (oldest first). *)
Record Db := mkDb {
  table : gmap Z Row;
  journal : list Sqlite.statement
}.

(** A computation that may read and write the database and may raise. *)
Definition M (A : Type) : Type := Db -> outcome A * Db.

Definition ret {A} (a : A) : M A := fun db => (Return a, db).

Definition raise {A} (e : exn) : M A := fun db => (Raise e, db).

Definition bind {A B} (m : M A) (k : A -> M B) : M B :=
  fun db =>
    match m db with
    | (Return a, db') => k a db'
    | (Raise e, db') => (Raise e, db')
    end.

Notation "'let!' x ':=' m 'in' k" := (bind m (fun x => k))
  (at level 10, x name, m at level 100, k at level 200).

Fixpoint mapM {A B} (f : A -> M B) (l : list A) : M (list B) :=
  match l with
  | [] => ret []
  | a :: l' =>
      let! b := f a in
      let! bs := mapM f l' in
      ret (b :: bs)
  end.

Module DbUtils.
Import Sqlite.

Definition logged (s : statement) (db : Db) : list statement := journal db ++ [s].

(** [execute_query]: run and commit; [lastrowid] for an INSERT, else
    [rowcount].  An exception is logged and re-raised. *)
Definition execute_query (now : Z) (c : command) : M Z :=
  fun db =>
    match execute now c (table db) with
    | Return (t', (lastrowid, rowcount)) =>
        (Return (match c with INSERT _ => lastrowid | _ => rowcount end),
         mkDb t' (logged (Command c) db))
    | Raise e => (Raise e, mkDb (table db) (logged (Command c) db))
    end.

(** [fetch_one]: [dict(row) if row else None] for the first row. *)
Definition fetch_one (q : query) : M (option Project) :=
  fun db =>
    match select q (table db) with
    | Return l => (Return (head l), mkDb (table db) (logged (Query q) db))
    | Raise e => (Raise e, mkDb (table db) (logged (Query q) db))
    end.

(** [fetch_all]: [[dict(row) for row in rows]]. *)
Definition fetch_all (q : query) : M (list Project) :=
  fun db =>
    match select q (table db) with
    | Return l => (Return l, mkDb (table db) (logged (Query q) db))
    | Raise e => (Raise e, mkDb (table db) (logged (Query q) db))
    end.

(** [fetch_all] for a one-column query; each row is read through its
    only key. *)
Definition fetch_all_column (q : column_query) : M (list string) :=
  fun db =>
    (Return (select_distinct q (table db)),
     mkDb (table db) (logged (ColumnQuery q) db)).

End DbUtils.

(** ** API layer ([backend/routes.py]) *)

Module Routes.
Import Models Sqlite DbUtils.

(** The two [except] clauses every CRUD handler ends with:
    [except HTTPException: raise] and
    [except Exception as e: raise HTTPException(500, ...)]. *)
Definition guarded {A} (m : M A) : M A :=
  fun db =>
    match m db with
    | (Raise (HTTPException s d), db') => (Raise (HTTPException s d), db')
    | (Raise _, db') => (Raise (HTTPException 500 Database_error), db')
    | (Return a, db') => (Return a, db')
    end.

(** The single clause of [get_filter_options]: every exception becomes
    a 500. *)
Definition guarded_all {A} (m : M A) : M A :=
  fun db =>
    match m db with
    | (Raise _, db') => (Raise (HTTPException 500 Database_error), db')
    | (Return a, db') => (Return a, db')
    end.

(** Building a [ProjectResponse] from a fetched row. *)
Definition ProjectResponse_new (row : Project) : M ProjectResponse :=
  match ProjectResponse_validate row with
  | inl errs => raise (ValidationError errs)
  | inr r => ret r
  end.

Definition create_project (now : Z) (project : ProjectCreate) : M ProjectResponse :=
  guarded (
    let! new_id := execute_query now (INSERT project) in
    let! created_project := fetch_one (SELECT_by_id new_id) in
    match created_project with
    | None => raise (HTTPException 500 Failed_to_retrieve_created_project)
    | Some row => ProjectResponse_new row
    end).

Definition valid_sort_fields : list string :=
  ["id"; "project_name"; "industry"; "start_date"; "end_date";
   "client_organization"; "created_at"; "updated_at"].

(** [if x: query += ...; params.append(...)] for a text parameter. *)
Definition if_text (x : option string) (mk : string -> cond) : list cond :=
  match x with
  | Some s => if Text.is_empty s then [] else [mk s]
  | None => []
  end.

(** The same for a date parameter; a [date] is always truthy. *)
Definition if_date (x : option date) (mk : date -> cond) : list cond :=
  match x with Some d => [mk d] | None => [] end.

Definition list_projects (industry client tools : option string)
    (start_after end_before : option date) (sort_by order : string)
  : M (list ProjectResponse) :=
  guarded (
    if negb (bool_decide (sort_by ∈ valid_sort_fields)) then
      raise (HTTPException 400 Invalid_sort_by_field)
    else if negb (bool_decide (Text.lower order ∈ ["asc"; "desc"])) then
      raise (HTTPException 400 Order_must_be_asc_or_desc)
    else
      let params :=
        if_text industry industry_eq
        ++ if_text client client_organization_eq
        ++ if_text tools (fun x => tools_used_like ("%" ++ x ++ "%")%string)
        ++ if_date start_after start_date_ge
        ++ if_date end_before end_date_le in
      let query := SELECT_where params sort_by (Text.upper order) in
      let! projects := fetch_all query in
      mapM ProjectResponse_new projects).

Definition get_project (project_id : Z) : M ProjectResponse :=
  guarded (
    let! project := fetch_one (SELECT_by_id project_id) in
    match project with
    | None => raise (HTTPException 404 (Project_not_found project_id))
    | Some row => ProjectResponse_new row
    end).

Definition update_project (now : Z) (project_id : Z) (project : ProjectUpdate)
  : M ProjectResponse :=
  guarded (
    let! existing := fetch_one (SELECT_by_id project_id) in
    match existing with
    | None => raise (HTTPException 404 (Project_not_found project_id))
    | Some existing_row =>
        let updates := model_dump_exclude_unset project in
        match updates with
        | [] => ProjectResponse_new existing_row
        | _ :: _ =>
            let! _ := execute_query now (UPDATE updates project_id) in
            let! updated_project := fetch_one (SELECT_by_id project_id) in
            match updated_project with
            | Some row => ProjectResponse_new row
            | None => raise TypeError
            end
        end
    end).

Definition delete_project (now : Z) (project_id : Z) : M Z :=
  guarded (
    let! existing := fetch_one (SELECT_by_id project_id) in
    match existing with
    | None => raise (HTTPException 404 (Project_not_found project_id))
    | Some _ =>
        let! _ := execute_query now (DELETE project_id) in
        ret project_id
    end).

(** The loop over [tools_data]: a [set] filled with the stripped,
    non-empty tokens of every truthy value. *)
Definition add_tools (tools_set : gset string) (tools_used : string) : gset string :=
  if Text.is_empty tools_used then tools_set
  else
    foldl (fun acc tool =>
             let tool := Text.strip tool in
             if Text.is_empty tool then acc else acc ∪ {[ tool ]})
          tools_set (Text.split_comma tools_used).

(** [sorted(...)] of a collection of strings. *)
Definition sorted (l : list string) : list string := merge_sort string_le l.

Definition get_filter_options : M FilterOptions :=
  guarded_all (
    let! industries := fetch_all_column DISTINCT_industry in
    let! clients := fetch_all_column DISTINCT_client_organization in
    let! tools_data := fetch_all_column DISTINCT_tools_used in
    let tools_set := foldl add_tools ∅ tools_data in
    let tools := sorted (elements tools_set) in
    ret {| industries := industries; clients := clients; tools := tools |}).

End Routes.

(** ** The HTTP surface (what the framework adds around the handlers) *)

Module Api.
Import Models Routes.

Inductive content :=
| Json_project (r : ProjectResponse)
| Json_projects (l : list ProjectResponse)
| Json_message_deleted (project_id : Z)
| Json_options (o : FilterOptions)
| Json_detail (d : detail)
| Json_validation_errors (fields : list string).

Record response := mkResponse { status : Z; body : content }.

(** A returned value is rendered with the route's success status; an
    [HTTPException] becomes its own status and detail. *)
Definition reply {A} (success : Z) (render : A -> content)
    (r : outcome A * Db) : response * Db :=
  match r with
  | (Return a, db) => (mkResponse success (render a), db)
  | (Raise (HTTPException s d), db) => (mkResponse s (Json_detail d), db)
  | (Raise _, db) => (mkResponse 500 (Json_detail Database_error), db)
  end.

(** The query string of [GET /api/projects]; dates are already parsed
    (text that is not a date is refused by the framework before the
    handler runs). *)
Record ListParams := mkListParams {
  q_industry : option string;
  q_client : option string;
  q_tools : option string;
  q_start_after : option date;
  q_end_before : option date;
  q_sort_by : option string;
  q_order : option string
}.

Inductive request :=
| POST_projects (json : Payload)
| GET_projects (q : ListParams)
| GET_project (project_id : Z)
| PUT_project (project_id : Z) (json : Payload)
| DELETE_project (project_id : Z)
| GET_filter_options.

(** [Query("created_at")] and [Query("desc")]. *)
Definition sort_by_of (q : ListParams) : string := default "created_at" (q_sort_by q).
Definition order_of (q : ListParams) : string := default "desc" (q_order q).

(** One request served at clock reading [now]. *)
Definition serve (now : Z) (req : request) (db : Db) : response * Db :=
  match req with
  | POST_projects json =>
      match ProjectCreate_validate json with
      | inl errs => (mkResponse 422 (Json_validation_errors errs), db)
      | inr project => reply 201 Json_project (create_project now project db)
      end
  | GET_projects q =>
      reply 200 Json_projects
        (list_projects (q_industry q) (q_client q) (q_tools q)
           (q_start_after q) (q_end_before q) (sort_by_of q) (order_of q) db)
  | GET_project project_id =>
      reply 200 Json_project (get_project project_id db)
  | PUT_project project_id json =>
      match ProjectUpdate_validate json with
      | inl errs => (mkResponse 422 (Json_validation_errors errs), db)
      | inr project =>
          reply 200 Json_project (update_project now project_id project db)
      end
  | DELETE_project project_id =>
      reply 200 Json_message_deleted (delete_project now project_id db)
  | GET_filter_options =>
      reply 200 Json_options (get_filter_options db)
  end.

(** A session: requests with their clock readings, in order. *)
Fixpoint session (reqs : list (Z * request)) (db : Db) : list response * Db :=
  match reqs with
  | [] => ([], db)
  | (now, req) :: reqs' =>
      let (resp, db') := serve now req db in
      let (resps, db'') := session reqs' db' in
      (resp :: resps, db'')
  end.

Definition empty_db : Db := mkDb ∅ [].

Definition no_body : Payload :=
  mkPayload Absent Absent Absent Absent Absent Absent Absent Absent Absent.

Definition no_params : ListParams :=
  mkListParams None None None None None None None.

End Api.

(** ** Sample data *)

Module Samples.
Import Models Sqlite Routes Api.

Definition d_2024_01_01 := mkdate 2024 1 1.
Definition d_2024_06_30 := mkdate 2024 6 30.

(** [{"project_name": "P", "description": "D", "start_date": "2024-06-30"}] *)
Definition body_P : Payload :=
  mkPayload (JVal "P") (JVal "D") Absent (JVal d_2024_06_30) Absent
    Absent Absent Absent Absent.

(** [{"end_date": "2024-01-01"}] *)
Definition body_end_only : Payload :=
  mkPayload Absent Absent Absent Absent (JVal d_2024_01_01)
    Absent Absent Absent Absent.

(** [{"industry": "Energy"}] *)
Definition body_industry : Payload :=
  mkPayload Absent Absent (JVal "Energy") Absent Absent
    Absent Absent Absent Absent.

Definition body_tools (name tools : string) : Payload :=
  mkPayload (JVal name) (JVal "D") Absent Absent Absent
    (JVal tools) Absent Absent Absent.

Definition row_P : Row :=
  mkRow "P" "D" None (Some d_2024_06_30) None None None None None 100 100.

Definition row_P_inverted : Row :=
  mkRow "P" "D" None (Some d_2024_06_30) (Some d_2024_01_01)
    None None None None 100 200.

Definition row_python : Row :=
  mkRow "A" "D" None None None (Some "Python") None None None 100 100.

Definition db_python : Db := mkDb {[ 1 := row_python ]} [].

Definition db_P : Db := mkDb {[ 1 := row_P ]} [].

Definition db_P_inverted : Db := mkDb {[ 1 := row_P_inverted ]} [].

End Samples.

(** ** Vocabulary of the statements *)

Module Vocabulary.
Import Models Sqlite DbUtils Routes Api.

(** A filter value as the handler's [if x:] sees it. *)
Definition unblank (x : option string) : option string :=
  match x with
  | Some s => if Text.is_empty s then None else Some s
  | None => None
  end.

(** Strictly before, in code-point order. *)
Definition string_lt : relation string := fun a b => String.ltb a b = true.

(** In alphabetical order and each entry once. *)
Definition strictly_sorted (l : list string) : Prop := StronglySorted string_lt l.



(** The response model of a row whose fields are taken as they are. *)
Definition to_response (p : Project) : ProjectResponse :=
  {| r_base :=
       {| b_project_name := project_name (cols p);
          b_description := description (cols p);
          b_industry := industry (cols p);
          b_start_date := start_date (cols p);
          b_end_date := end_date (cols p);
          b_tools_used := tools_used (cols p);
          b_role := role (cols p);
          b_client_organization := client_organization (cols p);
          b_client_description := client_description (cols p) |};
     r_id := id p;
     r_created_at := created_at (cols p);
     r_updated_at := updated_at (cols p) |}.

(** The row passes the response model. *)
Definition presentable (p : Project) : Prop :=
  ∃ x, ProjectResponse_validate p = inr x.

(** The response is a 200 whose body holds exactly the stored records
    satisfying [want], each once, in some order. *)
Definition selects_exactly (resp : response) (t : gmap Z Row) (want : Row -> bool) : Prop :=
  ∃ l, resp = mkResponse 200 (Json_projects (to_response <$> l))
       ∧ l ≡ₚ filter (fun p => want (cols p) = true) (rows t).

(** The query string [?tools=X]. *)
Definition tools_only (X : string) : ListParams :=
  mkListParams None None (Some X) None None None None.





(** The field subset S a partial update supplies. *)
Definition supplied (u : ProjectUpdate) : list field :=
  assigned_field <$> model_dump_exclude_unset u.




End Vocabulary.

(** ** Vocabulary of the wider contract *)

Module Contract.
Import Models Sqlite DbUtils Routes Api Vocabulary.

(** The [min_length] / [max_length] of each text field; dates have none. *)
Definition bounds (f : field) : option (nat * nat) :=
  match f with
  | F_project_name => Some (1, 200)%nat
  | F_description => Some (1, 2000)%nat
  | F_industry => Some (0, 100)%nat
  | F_tools_used => Some (0, 500)%nat
  | F_role => Some (0, 100)%nat
  | F_client_organization => Some (0, 200)%nat
  | F_client_description => Some (0, 1000)%nat
  | F_start_date | F_end_date => None
  end.

(** The value is a text whose length breaks the bounds of the field. *)
Definition out_of_bounds (f : field) (s : string) : Prop :=
  ∃ lo hi, bounds f = Some (lo, hi)
           ∧ (String.length s < lo ∨ hi < String.length s)%nat.

(** What a payload holds for a text field. *)
Definition payload_text (f : field) (json : Payload) : json_field string :=
  match f with
  | F_project_name => in_project_name json
  | F_description => in_description json
  | F_industry => in_industry json
  | F_tools_used => in_tools_used json
  | F_role => in_role json
  | F_client_organization => in_client_organization json
  | F_client_description => in_client_description json
  | F_start_date | F_end_date => Absent
  end.

(** A value respects the bounds of its field. *)
Definition within (f : field) (v : value) : bool :=
  match v, bounds f with
  | VStr s, Some (lo, hi) => (lo <=? String.length s)%nat && (String.length s <=? hi)%nat
  | _, _ => true
  end.

Definition all_fields : list field :=
  [F_project_name; F_description; F_industry; F_start_date; F_end_date;
   F_tools_used; F_role; F_client_organization; F_client_description].

(** Every text of the row respects its bounds. *)
Definition bounded (r : Row) : bool :=
  forallb (fun f => within f (get_field f r)) all_fields.

(** Not both dates present with [end_date < start_date]. *)
Definition dates_ordered (r : Row) : bool :=
  match start_date r, end_date r with
  | Some s, Some e => negb (date_ltb e s)
  | _, _ => true
  end.

Definition all_bounded (t : gmap Z Row) : Prop :=
  ∀ i r, t !! i = Some r → bounded r = true.

(** The request only reads. *)
Definition is_read (req : request) : bool :=
  match req with
  | GET_projects _ | GET_project _ | GET_filter_options => true
  | _ => false
  end.

(** A text filter of the list endpoint as a condition on a record: no
    condition when absent or empty. *)
Definition text_filter (x : option string) (test : string -> bool) : bool :=
  match x with
  | Some s => if Text.is_empty s then true else test s
  | None => true
  end.

Definition date_filter (x : option date) (test : date -> bool) : bool :=
  match x with Some d => test d | None => true end.

(** The record satisfies every filter of the query string: equality on
    [industry] and [client_organization], LIKE on [tools_used], inclusive
    bounds on the dates; a NULL column satisfies no filter put on it. *)
Definition matches (q : ListParams) (r : Row) : bool :=
  text_filter (q_industry q) (fun s => bool_decide (industry r = Some s))
  && text_filter (q_client q) (fun s => bool_decide (client_organization r = Some s))
  && text_filter (q_tools q)
       (fun s => on_text (tools_used r) (Text.like ("%" ++ s ++ "%")%string))
  && date_filter (q_start_after q) (fun d => on_date (start_date r) (date_leb d))
  && date_filter (q_end_before q) (fun d => on_date (end_date r) (fun x => date_leb x d)).

(** [ORDER BY ... DESC] was asked for. *)
Definition descending (q : ListParams) : bool :=
  bool_decide (Text.lower (order_of q) = "desc").




(** The value a payload supplies for a field: [None] unless a value of
    the right shape is given. *)
Definition given {A} (x : json_field A) : option A :=
  match x with JVal a => Some a | _ => None end.

Definition payload_value (f : field) (json : Payload) : value :=
  match f with
  | F_project_name => of_str (given (in_project_name json))
  | F_description => of_str (given (in_description json))
  | F_industry => of_str (given (in_industry json))
  | F_start_date => of_date (given (in_start_date json))
  | F_end_date => of_date (given (in_end_date json))
  | F_tools_used => of_str (given (in_tools_used json))
  | F_role => of_str (given (in_role json))
  | F_client_organization => of_str (given (in_client_organization json))
  | F_client_description => of_str (given (in_client_description json))
  end.

(** The fields of a create payload that fail their own validation, in
    declaration order. *)
Definition create_errors (json : Payload) : list string :=
  let v4 := optional_date (in_start_date json) in
  err F_project_name (required_str 1 200 (in_project_name json))
  ++ err F_description (required_str 1 2000 (in_description json))
  ++ err F_industry (optional_str 0 100 (in_industry json))
  ++ err F_start_date v4
  ++ err F_end_date (end_date_field (in_end_date json) v4)
  ++ err F_tools_used (optional_str 0 500 (in_tools_used json))
  ++ err F_role (optional_str 0 100 (in_role json))
  ++ err F_client_organization (optional_str 0 200 (in_client_organization json))
  ++ err F_client_description (optional_str 0 1000 (in_client_description json)).

(** The same for an update payload. *)
Definition update_errors (json : Payload) : list string :=
  let v4 := optional_date (in_start_date json) in
  err F_project_name (optional_str 1 200 (in_project_name json))
  ++ err F_description (optional_str 1 2000 (in_description json))
  ++ err F_industry (optional_str 0 100 (in_industry json))
  ++ err F_start_date v4
  ++ err F_end_date (end_date_field (in_end_date json) v4)
  ++ err F_tools_used (optional_str 0 500 (in_tools_used json))
  ++ err F_role (optional_str 0 100 (in_role json))
  ++ err F_client_organization (optional_str 0 200 (in_client_organization json))
  ++ err F_client_description (optional_str 0 1000 (in_client_description json)).

End Contract.

(** * Properties *)

Section Handlers.
Import Models Sqlite DbUtils Routes Api Vocabulary.

(** ** Basic facts about the persistence layer *)

Lemma fetch_one_by_id pid db :
  fetch_one (SELECT_by_id pid) db =
    (Return (mkProject pid <$> table db !! pid),
     mkDb (table db) (logged (Query (SELECT_by_id pid)) db)).
Proof.
  unfold fetch_one; simpl. destruct (table db !! pid); reflexivity.
Qed.

Lemma ProjectResponse_new_state row db :
  snd (ProjectResponse_new row db) = db.
Proof.
  unfold ProjectResponse_new. destruct (ProjectResponse_validate row); reflexivity.
Qed.

(** ** Sorting and ordering parameters of the list endpoint *)

Lemma list_projects_bad_sort_by industry client tools start_after end_before
    sort_by order db :
  sort_by ∉ valid_sort_fields →
  list_projects industry client tools start_after end_before sort_by order db
  = (Raise (HTTPException 400 Invalid_sort_by_field), db).
Proof.
  intros H. unfold list_projects, guarded.
  rewrite bool_decide_eq_false_2 by exact H. reflexivity.
Qed.

Lemma list_projects_bad_order industry client tools start_after end_before
    sort_by order db :
  sort_by ∈ valid_sort_fields →
  Text.lower order ∉ ["asc"; "desc"] →
  list_projects industry client tools start_after end_before sort_by order db
  = (Raise (HTTPException 400 Order_must_be_asc_or_desc), db).
Proof.
  intros Hs Ho. unfold list_projects, guarded.
  rewrite bool_decide_eq_true_2 by exact Hs.
  rewrite bool_decide_eq_false_2 by exact Ho. reflexivity.
Qed.

(** C1. A [sort_by] outside the allow-list, or an [order] whose lower
    case is neither [asc] nor [desc], is answered with HTTP 400 and the
    database (table and statement journal alike) is exactly as before:
    no statement was built or run.  Absent [sort_by] and [order] stand
    for [created_at] and [desc]. *)
Theorem list_projects_sort_gate (now : Z) (q : ListParams) (db : Db) :
  (sort_by_of q ∉ valid_sort_fields ∨ Text.lower (order_of q) ∉ ["asc"; "desc"] →
   ∃ d, serve now (GET_projects q) db = (mkResponse 400 (Json_detail d), db))
  ∧ serve now (GET_projects (mkListParams (q_industry q) (q_client q) (q_tools q)
                               (q_start_after q) (q_end_before q) None None)) db
    = reply 200 Json_projects
        (list_projects (q_industry q) (q_client q) (q_tools q)
           (q_start_after q) (q_end_before q) "created_at" "desc" db).
Proof.
  split; [| reflexivity].
  intros H. unfold serve.
  destruct (decide (sort_by_of q ∈ valid_sort_fields)) as [Hin | Hout].
  - destruct H as [H | H]; [contradiction |].
    rewrite list_projects_bad_order by assumption. eexists; reflexivity.
  - rewrite list_projects_bad_sort_by by assumption. eexists; reflexivity.
Qed.

Lemma list_projects_sort_gate_witness :
  ∃ d, serve 0 (GET_projects (mkListParams None None None None None
                               (Some "id;DROP TABLE work_projects") None))
         empty_db
       = (mkResponse 400 (Json_detail d), empty_db).
Proof.
  apply (proj1 (list_projects_sort_gate 0
           (mkListParams None None None None None
              (Some "id;DROP TABLE work_projects") None) empty_db)).
  left. vm_compute. intros H. 
  repeat (apply elem_of_cons in H as [H | H]; [discriminate H |]).
  apply elem_of_nil in H. exact H.
Defined.

(** ** Empty filter values *)

Lemma if_text_unblank x mk : if_text (unblank x) mk = if_text x mk.
Proof. destruct x as [[| c s] |]; reflexivity. Qed.

Lemma GET_projects_unblank (now : Z) (q : ListParams) (db : Db) :
  serve now (GET_projects q) db
  = serve now (GET_projects (mkListParams (unblank (q_industry q))
                               (unblank (q_client q)) (unblank (q_tools q))
                               (q_start_after q) (q_end_before q)
                               (q_sort_by q) (q_order q))) db.
Proof.
  unfold serve, list_projects, sort_by_of, order_of; simpl.
  rewrite !if_text_unblank. reflexivity.
Qed.

(** C10. An [industry], [client] or [tools] parameter given as the empty
    string is handled exactly as if it were absent: same response, same
    statement run, for every database and every other parameter.  In
    particular it does not select the records whose field is empty. *)
Theorem list_projects_blank_filter_is_absent (now : Z)
    (industry client tools : option string) (start_after end_before : option date)
    (sort_by order : option string) (db : Db) :
  let get i c t :=
    serve now (GET_projects (mkListParams i c t start_after end_before sort_by order)) db in
  get (Some "") client tools = get None client tools
  ∧ get industry (Some "") tools = get industry None tools
  ∧ get industry client (Some "") = get industry client None.
Proof.
  cbv zeta. repeat split.
  all: rewrite GET_projects_unblank; symmetry; rewrite GET_projects_unblank;
    reflexivity.
Qed.

End Handlers.

Section Validation.
Import Models Sqlite DbUtils Routes Api Vocabulary.

Lemma end_date_field_inverted sd ed :
  date_ltb ed sd = true →
  end_date_field (JVal ed) (Some (SetTo (Some sd))) = None.
Proof. intros H. unfold end_date_field; simpl. rewrite H. reflexivity. Qed.

(** Whatever the other fields are, a create payload whose two dates are
    inverted fails validation and [end_date] is among the offenders. *)
Lemma ProjectBase_validate_inverted json sd ed :
  in_start_date json = JVal sd →
  in_end_date json = JVal ed →
  date_ltb ed sd = true →
  ∃ errs, ProjectBase_validate json = inl errs ∧ "end_date" ∈ errs.
Proof.
  intros Hs He Hlt. unfold ProjectBase_validate.
  rewrite Hs, He. cbn [optional_date optional].
  rewrite (end_date_field_inverted _ _ Hlt).
  destruct (required_str 1 200 (in_project_name json)),
    (required_str 1 2000 (in_description json)),
    (optional_str 0 100 (in_industry json));
    (eexists; split; [reflexivity |]);
    cbn [err field_name app];
    repeat first [ apply list_elem_of_here | apply list_elem_of_further ].
Qed.

(** C6. A create payload in which both dates are present and
    [end_date < start_date] is answered with HTTP 422, the validation
    failure names [end_date], whatever the other fields hold, and the
    database is unchanged (no row inserted, no statement run). *)
Theorem create_rejects_inverted_dates (now : Z) (json : Payload) (db : Db)
    (sd ed : date) :
  in_start_date json = JVal sd →
  in_end_date json = JVal ed →
  date_ltb ed sd = true →
  ∃ errs,
    serve now (POST_projects json) db
    = (mkResponse 422 (Json_validation_errors errs), db)
    ∧ "end_date" ∈ errs.
Proof.
  intros Hs He Hlt.
  destruct (ProjectBase_validate_inverted json sd ed Hs He Hlt) as (errs & Hv & Hin).
  exists errs. split; [| exact Hin].
  unfold serve, ProjectCreate_validate. rewrite Hv. reflexivity.
Qed.

Lemma create_rejects_inverted_dates_witness :
  ∃ errs,
    serve 100 (POST_projects
                 (mkPayload (JVal "Invalid Dates") (JVal "End before start") Absent
                    (JVal (mkdate 2024 6 30)) (JVal (mkdate 2024 1 1))
                    Absent Absent Absent Absent)) empty_db
    = (mkResponse 422 (Json_validation_errors errs), empty_db)
    ∧ "end_date" ∈ errs.
Proof.
  apply (create_rejects_inverted_dates 100 _ empty_db
           (mkdate 2024 6 30) (mkdate 2024 1 1));
    reflexivity.
Defined.

End Validation.

Section Deletion.
Import Models Sqlite DbUtils Routes Api Vocabulary.

Lemma delete_project_absent now pid db :
  table db !! pid = None →
  delete_project now pid db
  = (Raise (HTTPException 404 (Project_not_found pid)),
     mkDb (table db) (logged (Query (SELECT_by_id pid)) db)).
Proof.
  intros H. unfold delete_project, guarded, bind.
  rewrite fetch_one_by_id, H. reflexivity.
Qed.

Lemma delete_project_present now pid db r :
  table db !! pid = Some r →
  ∃ j, delete_project now pid db = (Return pid, mkDb (delete pid (table db)) j).
Proof.
  intros H. unfold delete_project, guarded, bind.
  rewrite fetch_one_by_id, H. simpl.
  unfold execute_query; simpl. rewrite H. eexists; reflexivity.
Qed.



End Deletion.

Section TextOrder.
Import Sqlite Routes Vocabulary.

Lemma compare_as_OT a b : String.compare a b = OrdersEx.String_as_OT.compare a b.
Proof.
  revert b; induction a as [| c a IH]; intros [| d b]; reflexivity.
Qed.

Lemma compare_Lt_trans a b c :
  String.compare a b = Lt → String.compare b c = Lt → String.compare a c = Lt.
Proof.
  rewrite !compare_as_OT.
  apply (@StrictOrder_Transitive _ _ OrdersEx.String_as_OT.lt_strorder).
Qed.

Lemma compare_refl a : String.compare a a = Eq.
Proof.
  induction a as [| c a IH]; simpl; [reflexivity |].
  unfold Ascii.compare. rewrite N.compare_refl. exact IH.
Qed.

Lemma string_le_cases a b : string_le a b ↔ a = b ∨ string_lt a b.
Proof.
  unfold string_le, string_lt, String.leb, String.ltb. split.
  - destruct (String.compare a b) eqn:E; intros H; try discriminate.
    + left. apply String.compare_eq_iff, E.
    + right. reflexivity.
  - intros [-> | H].
    + rewrite compare_refl. reflexivity.
    + destruct (String.compare a b); (discriminate || reflexivity).
Qed.

Global Instance string_lt_trans : Transitive string_lt.
Proof.
  intros a b c. unfold string_lt, String.ltb.
  destruct (String.compare a b) eqn:E1; try discriminate.
  destruct (String.compare b c) eqn:E2; try discriminate.
  rewrite (compare_Lt_trans _ _ _ E1 E2). reflexivity.
Qed.

Global Instance string_le_trans : Transitive string_le.
Proof.
  intros a b c. rewrite !string_le_cases.
  intros [-> | H1] [-> | H2]; auto. right. etransitivity; eassumption.
Qed.

Global Instance string_le_total : Total string_le.
Proof. intros a b. apply String.leb_total. Qed.




Lemma strictly_sorted_NoDup (l : list string) : strictly_sorted l → NoDup l.
Proof.
  induction 1 as [| a l Hl IH Ha]; constructor; [| exact IH].
  intros Hin. rewrite Forall_forall in Ha. specialize (Ha a Hin).
  unfold string_lt, String.ltb in Ha. rewrite compare_refl in Ha. discriminate.
Qed.

End TextOrder.

Section FilterOptions.
Import Models Sqlite DbUtils Routes Api Vocabulary.

Lemma elem_of_rows (t : gmap Z Row) (p : Project) :
  p ∈ rows t ↔ t !! id p = Some (cols p).
Proof.
  unfold rows. rewrite list_elem_of_fmap. split.
  - intros ([i r] & -> & Hin). simpl. apply elem_of_map_to_list, Hin.
  - intros H. exists (id p, cols p). split; [destruct p; reflexivity |].
    apply elem_of_map_to_list, H.
Qed.









Lemma get_filter_options_run db :
  get_filter_options db
  = (Return {| industries := select_distinct DISTINCT_industry (table db);
               clients := select_distinct DISTINCT_client_organization (table db);
               tools := sorted (elements
                          (foldl add_tools ∅
                             (select_distinct DISTINCT_tools_used (table db)))) |},
     mkDb (table db)
       (((journal db ++ [ColumnQuery DISTINCT_industry])
           ++ [ColumnQuery DISTINCT_client_organization])
          ++ [ColumnQuery DISTINCT_tools_used])).
Proof. reflexivity. Qed.


(** The scenario of the specification: two records with tools
    ["Python, Django"] and ["Python, React"]. *)
Example filter_options_scenario :
  let db := snd (session [(100, POST_projects (Samples.body_tools "A" "Python, Django"));
                          (101, POST_projects (Samples.body_tools "B" "Python, React"))]
                   empty_db) in
  body (fst (serve 102 GET_filter_options db))
  = Json_options {| industries := []; clients := [];
                    tools := ["Django"; "Python"; "React"] |}.
Proof. vm_compute. reflexivity. Qed.

End FilterOptions.

Section Like.
Import Vocabulary.

Lemma like_percent_unfold pat s :
  Text.like (String "%" pat) s
  = Text.like pat s
    || match s with
       | EmptyString => false
       | String _ s' => Text.like (String "%" pat) s'
       end.
Proof. destruct s; reflexivity. Qed.

Lemma like_percent_only s : Text.like "%" s = true.
Proof.
  induction s as [| c s IH]; [reflexivity |].
  rewrite like_percent_unfold, IH. apply orb_true_r.
Qed.




End Like.

Section ResponseModel.
Import Models Sqlite DbUtils Routes Api Vocabulary.

Lemma required_str_value lo hi s a : required_str lo hi (JVal s) = Some a → a = s.
Proof. simpl. destruct (len_between lo hi s); congruence. Qed.

Lemma optional_str_value lo hi o a :
  optional_str lo hi (kw o) = Some a → setting_value a = o.
Proof.
  destruct o as [s |]; simpl; [| intros [= <-]; reflexivity].
  destruct (len_between lo hi s); [intros [= <-]; reflexivity | discriminate].
Qed.

Lemma optional_date_value o a :
  optional_date (kw o) = Some a → setting_value a = o.
Proof. destruct o; simpl; intros [= <-]; reflexivity. Qed.

Lemma end_date_field_value o st a :
  end_date_field (kw o) st = Some a → setting_value a = o.
Proof.
  unfold end_date_field. destruct o as [e |]; simpl.
  - destruct (data_get_start_date st) as [s |]; simpl.
    + destruct (date_ltb e s); [discriminate | intros [= <-]; reflexivity].
    + intros [= <-]; reflexivity.
  - intros [= <-]; reflexivity.
Qed.

(** Validation does not alter a row: a row that passes is returned with
    the stored values. *)
Lemma ProjectResponse_validate_value p x :
  ProjectResponse_validate p = inr x → x = to_response p.
Proof.
  unfold ProjectResponse_validate, ProjectBase_validate, to_response.
  destruct p as [i r]. cbn [cols id kwargs in_project_name in_description
    in_industry in_start_date in_end_date in_tools_used in_role
    in_client_organization in_client_description].
  destruct (required_str 1 200 (JVal (project_name r))) eqn:E1; [| discriminate].
  destruct (required_str 1 2000 (JVal (description r))) eqn:E2; [| discriminate].
  destruct (optional_str 0 100 (kw (industry r))) eqn:E3; [| discriminate].
  destruct (optional_date (kw (start_date r))) eqn:E4; [| discriminate].
  destruct (end_date_field _ _) eqn:E5; [| discriminate].
  destruct (optional_str 0 500 (kw (tools_used r))) eqn:E6; [| discriminate].
  destruct (optional_str 0 100 (kw (role r))) eqn:E7; [| discriminate].
  destruct (optional_str 0 200 (kw (client_organization r))) eqn:E8; [| discriminate].
  destruct (optional_str 0 1000 (kw (client_description r))) eqn:E9; [| discriminate].
  intros [= <-].
  rewrite (required_str_value _ _ _ _ E1), (required_str_value _ _ _ _ E2),
    (optional_str_value _ _ _ _ E3), (optional_date_value _ _ E4),
    (end_date_field_value _ _ _ E5), (optional_str_value _ _ _ _ E6),
    (optional_str_value _ _ _ _ E7), (optional_str_value _ _ _ _ E8),
    (optional_str_value _ _ _ _ E9).
  reflexivity.
Qed.

Lemma ProjectResponse_new_presentable p db :
  presentable p → ProjectResponse_new p db = (Return (to_response p), db).
Proof.
  intros [x Hx]. unfold ProjectResponse_new. rewrite Hx.
  rewrite (ProjectResponse_validate_value _ _ Hx). reflexivity.
Qed.

Lemma mapM_presentable (l : list Project) db :
  (∀ p, p ∈ l → presentable p) →
  mapM ProjectResponse_new l db = (Return (to_response <$> l), db).
Proof.
  induction l as [| p l IH]; intros H; [reflexivity |].
  simpl. unfold bind at 1.
  rewrite (ProjectResponse_new_presentable p db) by (apply H; left).
  unfold bind at 1. rewrite IH by (intros q Hq; apply H; right; exact Hq).
  reflexivity.
Qed.

End ResponseModel.

Section ToolsFilter.
Import Models Sqlite DbUtils Routes Api Vocabulary.

Lemma list_projects_run industry client tools start_after end_before
    sort_by order k descending db :
  sort_by ∈ valid_sort_fields →
  Text.lower order ∈ ["asc"; "desc"] →
  column sort_by = Some k →
  direction (Text.upper order) = Some descending →
  let where_ :=
    if_text industry industry_eq
    ++ if_text client client_organization_eq
    ++ if_text tools (fun x => tools_used_like ("%" ++ x ++ "%")%string)
    ++ if_date start_after start_date_ge
    ++ if_date end_before end_date_le in
  list_projects industry client tools start_after end_before sort_by order db
  = guarded
      (mapM ProjectResponse_new
         (merge_sort (ordered k descending)
            (filter (fun p => forallb (holds (cols p)) where_ = true)
               (rows (table db)))))
      (mkDb (table db)
         (logged (Query (SELECT_where where_ sort_by (Text.upper order))) db)).
Proof.
  intros Hs Ho Hk Hd where_. unfold list_projects, guarded.
  rewrite (bool_decide_eq_true_2 _ Hs), (bool_decide_eq_true_2 _ Ho).
  cbn [negb]. unfold bind, fetch_all, select. fold where_.
  rewrite Hk, Hd. reflexivity.
Qed.





End ToolsFilter.

Section Update.
Import Models Sqlite DbUtils Routes Api Vocabulary.

(** ** One assignment, then a list of them *)

Lemma apply_assignment_spec a r r' :
  apply_assignment a r = Some r' →
  get_field (assigned_field a) r' = assigned_value a
  ∧ (∀ f, f ≠ assigned_field a → get_field f r' = get_field f r)
  ∧ created_at r' = created_at r
  ∧ updated_at r' = updated_at r.
Proof.
  destruct a as [[s |] | [s |] | v | v | v | v | v | v | v]; simpl;
    intros [= <-]; (split; [reflexivity |]);
    (split; [| split; reflexivity]);
    intros f Hf; destruct f; simpl; congruence.
Qed.







(** ** The handler *)

(** What [update_project] does to an existing row when at least one
    field is supplied. *)
Lemma update_project_run now pid u db r :
  table db !! pid = Some r →
  model_dump_exclude_unset u ≠ [] →
  ∃ j,
    update_project now pid u db
    = match apply_assignments (model_dump_exclude_unset u) r with
      | None => (Raise (HTTPException 500 Database_error), mkDb (table db) j)
      | Some r1 =>
          guarded (ProjectResponse_new (mkProject pid (schema_update_trigger now r1)))
            (mkDb (<[pid := schema_update_trigger now r1]> (table db)) j)
      end.
Proof.
  intros Hr Hne. unfold update_project.
  destruct (model_dump_exclude_unset u) as [| a l] eqn:Ed; [contradiction |].
  unfold guarded at 1. unfold bind at 1. rewrite fetch_one_by_id, Hr.
  cbn [fmap option_fmap option_map].
  unfold bind at 1. unfold execute_query. cbn [execute table]. rewrite Hr.
  destruct (apply_assignments (a :: l) r) as [r1 |] eqn:Ea.
  - unfold bind at 1. rewrite fetch_one_by_id. cbn [table].
    rewrite lookup_insert_eq. cbn [fmap option_fmap option_map].
    eexists. unfold guarded. reflexivity.
  - eexists. reflexivity.
Qed.

Lemma guarded_ProjectResponse_new_state p db :
  snd (guarded (ProjectResponse_new p) db) = db.
Proof.
  unfold guarded, ProjectResponse_new.
  destruct (ProjectResponse_validate p); reflexivity.
Qed.

Lemma update_project_table now pid u db r :
  table db !! pid = Some r →
  model_dump_exclude_unset u ≠ [] →
  table (snd (update_project now pid u db))
  = match apply_assignments (model_dump_exclude_unset u) r with
    | None => table db
    | Some r1 => <[pid := schema_update_trigger now r1]> (table db)
    end.
Proof.
  intros Hr Hne. destruct (update_project_run now pid u db r Hr Hne) as [j ->].
  destruct (apply_assignments _ r); [| reflexivity].
  rewrite guarded_ProjectResponse_new_state. reflexivity.
Qed.

End Update.

Section PartialUpdate.
Import Models Sqlite DbUtils Routes Api Vocabulary Samples.

Lemma reply_state {A} success (render : A -> content) (r : outcome A * Db) :
  snd (reply success render r) = snd r.
Proof. destruct r as [[a | [s d | l | | |]] db]; reflexivity. Qed.





(** ** The response model applied to a stored row with inverted dates *)

Lemma inverted_row_not_presentable p sd ed :
  start_date (cols p) = Some sd →
  end_date (cols p) = Some ed →
  date_ltb ed sd = true →
  ∃ errs, ProjectResponse_validate p = inl errs.
Proof.
  intros Hs He Hlt. unfold ProjectResponse_validate.
  destruct (ProjectBase_validate_inverted (kwargs (cols p)) sd ed)
    as (errs & Hv & _).
  - simpl. rewrite Hs. reflexivity.
  - simpl. rewrite He. reflexivity.
  - exact Hlt.
  - rewrite Hv. eauto.
Qed.

(** An update that supplies only an [end_date] earlier than the stored
    [start_date] is written to the table, and the handler then answers
    500: building the response from the updated row raises. *)
Lemma update_end_date_only now pid db r sd ed :
  table db !! pid = Some r →
  start_date r = Some sd →
  date_ltb ed sd = true →
  let out := serve now (PUT_project pid
               (mkPayload Absent Absent Absent Absent (JVal ed)
                  Absent Absent Absent Absent)) db in
  status (fst out) = 500
  ∧ ∃ r', table (snd out) !! pid = Some r'
          ∧ end_date r' = Some ed ∧ start_date r' = Some sd.
Proof.
  intros Hr Hs Hlt out. subst out. unfold serve.
  change (ProjectUpdate_validate _)
    with (@inr (list string) _
            (mkProjectUpdate Unset Unset Unset Unset (SetTo (Some ed))
               Unset Unset Unset Unset)).
  cbv iota beta.
  destruct (update_project_run now pid
              (mkProjectUpdate Unset Unset Unset Unset (SetTo (Some ed))
                 Unset Unset Unset Unset) db r Hr) as [j Hrun];
    [discriminate |].
  rewrite Hrun. cbn [model_dump_exclude_unset dump u_project_name u_description
    u_industry u_start_date u_end_date u_tools_used u_role
    u_client_organization u_client_description app apply_assignments
    apply_assignment].
  destruct (inverted_row_not_presentable
              (mkProject pid
                 (schema_update_trigger now
                    (mkRow (project_name r) (description r) (industry r)
                       (start_date r) (Some ed) (tools_used r) (role r)
                       (client_organization r) (client_description r)
                       (created_at r) (updated_at r)))) sd ed)
    as [errs Herr]; [exact Hs | reflexivity | exact Hlt |].
  unfold guarded, ProjectResponse_new. rewrite Herr.
  split; [reflexivity |].
  eexists. split; [apply lookup_insert_eq |]. split; [reflexivity | exact Hs].
Qed.

(** C3, evaluated.  Stored [start_date] 2024-06-30; the body
    [{"end_date": "2024-01-01"}] passes request validation and the row is
    rewritten with the inverted dates, but the status is 500, not 200. *)
Theorem update_end_date_only_answers_500 :
  let out := serve 200 (PUT_project 1 body_end_only) db_P in
  (∃ u, ProjectUpdate_validate body_end_only = inr u)
  ∧ status (fst out) = 500
  ∧ table (snd out) !! 1 = Some row_P_inverted.
Proof.
  cbv zeta. split; [eexists; reflexivity |].
  split; vm_compute; reflexivity.
Qed.

(** C5, evaluated.  The same request is answered with an error status
    although the stored state has changed. *)
Theorem update_error_after_commit :
  let out := serve 200 (PUT_project 1 body_end_only) db_P in
  status (fst out) = 500 ∧ table (snd out) ≠ table db_P.
Proof.
  cbv zeta. split; [vm_compute; reflexivity |].
  intros H. apply (f_equal (fun t => end_date <$> t !! 1)) in H.
  vm_compute in H. discriminate H.
Qed.

(** C8, evaluated.  On a table reached through the API (a create and the
    update above) an update with an empty body leaves the table alone
    but is answered 500, not 200. *)
Theorem empty_update_of_inverted_row_answers_500 :
  table (snd (session [(100, POST_projects body_P);
                       (200, PUT_project 1 body_end_only)] empty_db))
  = table db_P_inverted
  ∧ let out := serve 300 (PUT_project 1 no_body) db_P_inverted in
    status (fst out) = 500 ∧ table (snd out) = table db_P_inverted.
Proof.
  split; [vm_compute; reflexivity |].
  cbv zeta. split; vm_compute; reflexivity.
Qed.

(** On a row that passes the response model the empty update is the
    no-op the handler intends. *)
Lemma empty_update_of_presentable_row now pid db r :
  table db !! pid = Some r →
  presentable (mkProject pid r) →
  let out := serve now (PUT_project pid no_body) db in
  fst out = mkResponse 200 (Json_project (to_response (mkProject pid r)))
  ∧ table (snd out) = table db.
Proof.
  intros Hr Hp out. subst out. unfold serve.
  change (ProjectUpdate_validate no_body)
    with (@inr (list string) _
            (mkProjectUpdate Unset Unset Unset Unset Unset Unset Unset Unset Unset)).
  cbv iota beta.
  assert (E : update_project now pid
                (mkProjectUpdate Unset Unset Unset Unset Unset Unset Unset Unset Unset) db
              = (Return (to_response (mkProject pid r)),
                 mkDb (table db) (logged (Query (SELECT_by_id pid)) db))).
  { unfold update_project, guarded. unfold bind at 1.
    rewrite fetch_one_by_id, Hr. cbn [fmap option_fmap option_map].
    cbn [model_dump_exclude_unset dump u_project_name u_description
      u_industry u_start_date u_end_date u_tools_used u_role
      u_client_organization u_client_description app].
    rewrite (ProjectResponse_new_presentable _ _ Hp). reflexivity. }
  rewrite E. split; reflexivity.
Qed.

End PartialUpdate.

Section DeletionWitness.
Import Models Sqlite DbUtils Routes Api Vocabulary Samples.


End DeletionWitness.

Section ErrorAtomicity.
Import Models Sqlite DbUtils Routes Api Vocabulary.

(** ** The key of a new row is not in use *)

Lemma schema_next_id_above (t : gmap Z Row) k :
  is_Some (t !! k) → k < schema_next_id t.
Proof.
  unfold schema_next_id.
  assert (H : ∀ k, is_Some (t !! k) → k ≤ map_fold (fun k _ acc => Z.max k acc) 0 t).
  { apply (map_fold_weak_ind
             (fun r (m : gmap Z Row) => ∀ k, is_Some (m !! k) → k ≤ r)).
    - intros j [x Hx]. rewrite lookup_empty in Hx. discriminate.
    - intros i x m r _ IH j Hj. destruct (decide (i = j)) as [-> | Hne]; [lia |].
      rewrite lookup_insert_ne in Hj by exact Hne. specialize (IH j Hj). lia. }
  intros Hk. specialize (H k Hk). lia.
Qed.

Lemma schema_next_id_fresh (t : gmap Z Row) : t !! schema_next_id t = None.
Proof.
  destruct (t !! schema_next_id t) as [r |] eqn:E; [| reflexivity].
  pose proof (schema_next_id_above t (schema_next_id t) (ex_intro _ r E)). lia.
Qed.

(** ** A validated create payload yields a row that passes the response model *)

Lemma required_str_again lo hi x s :
  required_str lo hi x = Some s → required_str lo hi (JVal s) = Some s.
Proof.
  destruct x as [| | t |]; simpl; try discriminate.
  destruct (len_between lo hi t) eqn:E; [| discriminate].
  intros [= <-]. rewrite E. reflexivity.
Qed.

Lemma optional_again {A} (ok : A -> bool) x a :
  optional ok x = Some a →
  optional ok (kw (setting_value a)) = Some (SetTo (setting_value a)).
Proof.
  destruct x as [| | t |]; simpl; try discriminate;
    try (intros [= <-]; reflexivity).
  destruct (ok t) eqn:E; [| discriminate].
  intros [= <-]. simpl. rewrite E. reflexivity.
Qed.

Lemma end_date_field_again x a4 a5 :
  end_date_field x (Some a4) = Some a5 →
  end_date_field (kw (setting_value a5)) (Some (SetTo (setting_value a4)))
  = Some (SetTo (setting_value a5)).
Proof.
  unfold end_date_field. destruct x as [| | e |]; simpl; try discriminate;
    try (intros [= <-]; reflexivity).
  destruct (setting_value a4) as [s |] eqn:E4; simpl.
  - destruct (date_ltb e s) eqn:El; [discriminate |].
    intros [= <-]. simpl. rewrite El. reflexivity.
  - intros [= <-]. reflexivity.
Qed.

Lemma created_row_presentable json p now i :
  ProjectCreate_validate json = inr p →
  presentable (mkProject i (schema_new_row now p)).
Proof.
  unfold ProjectCreate_validate, ProjectBase_validate.
  destruct (required_str 1 200 (in_project_name json)) eqn:E1; [| discriminate].
  destruct (required_str 1 2000 (in_description json)) eqn:E2; [| discriminate].
  destruct (optional_str 0 100 (in_industry json)) eqn:E3; [| discriminate].
  destruct (optional_date (in_start_date json)) eqn:E4; [| discriminate].
  destruct (end_date_field _ _) eqn:E5; [| discriminate].
  destruct (optional_str 0 500 (in_tools_used json)) eqn:E6; [| discriminate].
  destruct (optional_str 0 100 (in_role json)) eqn:E7; [| discriminate].
  destruct (optional_str 0 200 (in_client_organization json)) eqn:E8; [| discriminate].
  destruct (optional_str 0 1000 (in_client_description json)) eqn:E9; [| discriminate].
  intros [= <-]. unfold presentable, ProjectResponse_validate, ProjectBase_validate.
  cbn [cols id kwargs schema_new_row in_project_name in_description
    in_industry in_start_date in_end_date in_tools_used in_role
    in_client_organization in_client_description
    project_name description industry start_date end_date tools_used role
    client_organization client_description
    b_project_name b_description b_industry b_start_date b_end_date
    b_tools_used b_role b_client_organization b_client_description].
  rewrite (required_str_again _ _ _ _ E1), (required_str_again _ _ _ _ E2).
  unfold optional_str, optional_date in *.
  rewrite (optional_again _ _ _ E3), (optional_again _ _ _ E4),
    (end_date_field_again _ _ _ E5), (optional_again _ _ _ E6),
    (optional_again _ _ _ E7), (optional_again _ _ _ E8),
    (optional_again _ _ _ E9).
  eexists. reflexivity.
Qed.

(** A valid create is answered 201 with the stored values. *)
Lemma create_project_succeeds json p now db :
  ProjectCreate_validate json = inr p →
  fst (serve now (POST_projects json) db)
  = mkResponse 201
      (Json_project
         (to_response (mkProject (schema_next_id (table db)) (schema_new_row now p)))).
Proof.
  intros Hv. unfold serve. rewrite Hv.
  unfold create_project, guarded. unfold bind at 1.
  unfold execute_query. cbn [execute table]. unfold bind at 1.
  rewrite fetch_one_by_id. cbn [table]. rewrite lookup_insert_eq.
  cbn [fmap option_fmap option_map].
  rewrite (ProjectResponse_new_presentable _ _
             (created_row_presentable json p now _ Hv)).
  reflexivity.
Qed.

(** ** Reads do not write *)

Lemma mapM_ProjectResponse_new_state l db :
  snd (mapM ProjectResponse_new l db) = db.
Proof.
  induction l as [| p l IH]; [reflexivity |]. simpl. unfold bind at 1.
  pose proof (ProjectResponse_new_state p db) as Hp.
  destruct (ProjectResponse_new p db) as [[x | e] db1]; simpl in Hp; subst db1;
    [| reflexivity].
  unfold bind at 1.
  destruct (mapM ProjectResponse_new l db) as [[xs | e] db2]; simpl in IH; subst db2;
    reflexivity.
Qed.

Lemma guarded_table {A} (m : M A) db :
  table (snd (guarded m db)) = table (snd (m db)).
Proof. unfold guarded. destruct (m db) as [[a | [s d | l | | |]] db']; reflexivity. Qed.

Lemma list_projects_table industry client tools start_after end_before
    sort_by order db :
  table (snd (list_projects industry client tools start_after end_before
                sort_by order db)) = table db.
Proof.
  unfold list_projects. rewrite guarded_table.
  destruct (negb (bool_decide (sort_by ∈ valid_sort_fields))); [reflexivity |].
  destruct (negb (bool_decide (Text.lower order ∈ ["asc"; "desc"]))); [reflexivity |].
  unfold bind, fetch_all.
  destruct (select _ (table db)) as [l | e]; [| reflexivity].
  rewrite (surjective_pairing (mapM ProjectResponse_new l _)).
  rewrite mapM_ProjectResponse_new_state. reflexivity.
Qed.

Lemma get_project_table pid db : table (snd (get_project pid db)) = table db.
Proof.
  unfold get_project. rewrite guarded_table. unfold bind.
  rewrite fetch_one_by_id. destruct (table db !! pid) as [r |]; simpl; [| reflexivity].
  rewrite ProjectResponse_new_state. reflexivity.
Qed.

Lemma update_project_nothing_supplied now pid u db :
  model_dump_exclude_unset u = [] →
  table (snd (update_project now pid u db)) = table db.
Proof.
  intros E. unfold update_project. rewrite guarded_table. unfold bind at 1.
  rewrite fetch_one_by_id. destruct (table db !! pid) as [r |]; simpl; [| reflexivity].
  rewrite E. rewrite ProjectResponse_new_state. reflexivity.
Qed.

(** Every error answer that comes with a changed table is an update that
    supplies at least one field: all other operations fail without
    touching the stored state. *)
Lemma error_with_changed_table_is_update now req db :
  400 ≤ status (fst (serve now req db)) →
  table (snd (serve now req db)) ≠ table db →
  ∃ pid json u,
    req = PUT_project pid json
    ∧ ProjectUpdate_validate json = inr u
    ∧ supplied u ≠ [].
Proof.
  intros Herr Hchg. destruct req as [json | q | pid | pid json | pid |].
  - destruct (ProjectCreate_validate json) as [errs | p] eqn:Hv.
    + exfalso. apply Hchg. unfold serve. rewrite Hv. reflexivity.
    + rewrite (create_project_succeeds json p now db Hv) in Herr. simpl in Herr. lia.
  - exfalso. apply Hchg. unfold serve. rewrite reply_state.
    apply list_projects_table.
  - exfalso. apply Hchg. unfold serve. rewrite reply_state.
    apply get_project_table.
  - destruct (ProjectUpdate_validate json) as [errs | u] eqn:Hv.
    + exfalso. apply Hchg. unfold serve. rewrite Hv. reflexivity.
    + exists pid, json, u. split; [reflexivity |]. split; [exact Hv |].
      intros E. apply Hchg. unfold serve. rewrite Hv, reply_state.
      apply update_project_nothing_supplied.
      unfold supplied in E. apply fmap_nil_inv in E. exact E.
  - destruct (table db !! pid) as [r |] eqn:Hr.
    + exfalso. unfold serve in Herr.
      destruct (delete_project_present now pid db r Hr) as [j Hd].
      rewrite Hd in Herr. simpl in Herr. lia.
    + exfalso. apply Hchg. unfold serve.
      rewrite (delete_project_absent now pid db Hr). reflexivity.
  - exfalso. apply Hchg. unfold serve. rewrite get_filter_options_run. reflexivity.
Qed.

End ErrorAtomicity.

(** * The wider contract *)

Section ResponseModelContract.
Import Models Sqlite DbUtils Routes Api Vocabulary Contract.

Lemma bounded_fields r :
  bounded r = true ↔ ∀ f, within f (get_field f r) = true.
Proof.
  unfold bounded. rewrite forallb_forall. split.
  - intros H f. apply H. destruct f; simpl; tauto.
  - intros H f _. apply H.
Qed.

Lemma required_str_within lo hi s a :
  required_str lo hi (JVal s) = Some a → len_between lo hi s = true.
Proof. simpl. destruct (len_between lo hi s); congruence. Qed.

Lemma optional_str_within lo hi o a :
  optional_str lo hi (kw o) = Some a →
  match o with Some s => len_between lo hi s | None => true end = true.
Proof.
  destruct o as [s |]; simpl; [| reflexivity].
  destruct (len_between lo hi s); congruence.
Qed.

Lemma end_date_field_ordered s e a :
  end_date_field (kw e) (optional_date (kw s)) = Some a →
  match s, e with Some s, Some e => negb (date_ltb e s) | _, _ => true end = true.
Proof.
  destruct s as [s |], e as [e |]; simpl; try reflexivity.
  unfold end_date_field; simpl. destruct (date_ltb e s); [discriminate | reflexivity].
Qed.

Lemma presentable_bounded_ordered p :
  presentable p → bounded (cols p) = true ∧ dates_ordered (cols p) = true.
Proof.
  intros [x Hx]. revert Hx.
  unfold ProjectResponse_validate, ProjectBase_validate.
  destruct p as [i r]. cbn [cols id kwargs in_project_name in_description
    in_industry in_start_date in_end_date in_tools_used in_role
    in_client_organization in_client_description].
  destruct (required_str 1 200 (JVal (project_name r))) eqn:E1; [| discriminate].
  destruct (required_str 1 2000 (JVal (description r))) eqn:E2; [| discriminate].
  destruct (optional_str 0 100 (kw (industry r))) eqn:E3; [| discriminate].
  destruct (optional_date (kw (start_date r))) eqn:E4; [| discriminate].
  destruct (end_date_field _ _) eqn:E5; [| discriminate].
  destruct (optional_str 0 500 (kw (tools_used r))) eqn:E6; [| discriminate].
  destruct (optional_str 0 100 (kw (role r))) eqn:E7; [| discriminate].
  destruct (optional_str 0 200 (kw (client_organization r))) eqn:E8; [| discriminate].
  destruct (optional_str 0 1000 (kw (client_description r))) eqn:E9; [| discriminate].
  intros _.
  apply required_str_within in E1, E2.
  apply optional_str_within in E3, E6, E7, E8, E9.
  rewrite <- E4 in E5. apply end_date_field_ordered in E5.
  split; [| exact E5].
  apply bounded_fields. intros f.
  destruct f; cbn [get_field]; try assumption.
  all: try (destruct (industry r); [assumption | reflexivity]).
  all: try (destruct (tools_used r); [assumption | reflexivity]).
  all: try (destruct (role r); [assumption | reflexivity]).
  all: try (destruct (client_organization r); [assumption | reflexivity]).
  all: try (destruct (client_description r); [assumption | reflexivity]).
  - destruct (start_date r); reflexivity.
  - destruct (end_date r); reflexivity.
Qed.

Lemma within_of_str f lo hi o :
  bounds f = Some (lo, hi) →
  within f (of_str o)
  = match o with Some s => len_between lo hi s | None => true end.
Proof. intros Hb. destruct o; unfold within; simpl; rewrite ?Hb; reflexivity. Qed.

Lemma required_str_JVal lo hi s :
  len_between lo hi s = true → required_str lo hi (JVal s) = Some s.
Proof. intros H. simpl. rewrite H. reflexivity. Qed.

Lemma optional_str_kw lo hi o :
  match o with Some s => len_between lo hi s | None => true end = true →
  optional_str lo hi (kw o) = Some (SetTo o).
Proof. destruct o as [s |]; simpl; [intros -> |]; reflexivity. Qed.

Lemma end_date_field_kw s e :
  match s, e with Some s, Some e => negb (date_ltb e s) | _, _ => true end = true →
  end_date_field (kw e) (Some (SetTo s)) = Some (SetTo e).
Proof.
  destruct s as [s |], e as [e |]; simpl; try reflexivity.
  unfold end_date_field; simpl. destruct (date_ltb e s); [discriminate | reflexivity].
Qed.

Lemma bounded_ordered_presentable p :
  bounded (cols p) = true → dates_ordered (cols p) = true → presentable p.
Proof.
  intros Hb Hd. destruct p as [i r]. cbn [cols] in *.
  rewrite bounded_fields in Hb.
  pose proof (Hb F_project_name) as H1. pose proof (Hb F_description) as H2.
  pose proof (Hb F_industry) as H3. pose proof (Hb F_tools_used) as H6.
  pose proof (Hb F_role) as H7. pose proof (Hb F_client_organization) as H8.
  pose proof (Hb F_client_description) as H9. clear Hb.
  cbn [get_field] in H1, H2, H3, H6, H7, H8, H9.
  rewrite (within_of_str F_industry 0 100 _ eq_refl) in H3.
  rewrite (within_of_str F_tools_used 0 500 _ eq_refl) in H6.
  rewrite (within_of_str F_role 0 100 _ eq_refl) in H7.
  rewrite (within_of_str F_client_organization 0 200 _ eq_refl) in H8.
  rewrite (within_of_str F_client_description 0 1000 _ eq_refl) in H9.
  change (len_between 1 200 (project_name r) = true) in H1.
  change (len_between 1 2000 (description r) = true) in H2.
  unfold presentable, ProjectResponse_validate, ProjectBase_validate.
  cbn [cols id kwargs in_project_name in_description
    in_industry in_start_date in_end_date in_tools_used in_role
    in_client_organization in_client_description].
  rewrite (required_str_JVal _ _ _ H1), (required_str_JVal _ _ _ H2),
    (optional_str_kw _ _ _ H3), (optional_str_kw _ _ _ H6),
    (optional_str_kw _ _ _ H7), (optional_str_kw _ _ _ H8),
    (optional_str_kw _ _ _ H9).
  change (optional_date (kw (start_date r))) with (optional (fun _ : date => true) (kw (start_date r))).
  replace (optional (fun _ : date => true) (kw (start_date r)))
    with (Some (SetTo (start_date r))) by (destruct (start_date r); reflexivity).
  rewrite (end_date_field_kw _ _ Hd).
  eexists. reflexivity.
Qed.

(** X1. A stored row passes the response model exactly when all its
    texts respect the field bounds and its dates are not inverted. *)
Theorem response_model_accepts_iff (p : Project) :
  presentable p ↔ bounded (cols p) = true ∧ dates_ordered (cols p) = true.
Proof.
  split.
  - apply presentable_bounded_ordered.
  - intros [Hb Hd]. apply bounded_ordered_presentable; assumption.
Qed.

End ResponseModelContract.


Section RequestValidation.
Import Models Sqlite DbUtils Routes Api Vocabulary Contract.

(** Validation succeeds exactly when no field fails, and otherwise
    reports exactly the failing fields. *)
Lemma ProjectBase_validate_cases json :
  (create_errors json = [] ∧ ∃ p, ProjectBase_validate json = inr p)
  ∨ (create_errors json ≠ [] ∧ ProjectBase_validate json = inl (create_errors json)).
Proof.
  unfold ProjectBase_validate, create_errors. cbv zeta.
  destruct (required_str 1 200 (in_project_name json));
    [| right; split; [discriminate | reflexivity]].
  destruct (required_str 1 2000 (in_description json));
    [| right; split; [discriminate | reflexivity]].
  destruct (optional_str 0 100 (in_industry json));
    [| right; split; [discriminate | reflexivity]].
  destruct (optional_date (in_start_date json));
    [| right; split; [discriminate | reflexivity]].
  destruct (end_date_field _ _);
    [| right; split; [discriminate | reflexivity]].
  destruct (optional_str 0 500 (in_tools_used json));
    [| right; split; [discriminate | reflexivity]].
  destruct (optional_str 0 100 (in_role json));
    [| right; split; [discriminate | reflexivity]].
  destruct (optional_str 0 200 (in_client_organization json));
    [| right; split; [discriminate | reflexivity]].
  destruct (optional_str 0 1000 (in_client_description json));
    [| right; split; [discriminate | reflexivity]].
  left. split; [reflexivity | eexists; reflexivity].
Qed.

Lemma ProjectUpdate_validate_cases json :
  (update_errors json = [] ∧ ∃ u, ProjectUpdate_validate json = inr u)
  ∨ (update_errors json ≠ [] ∧ ProjectUpdate_validate json = inl (update_errors json)).
Proof.
  unfold ProjectUpdate_validate, update_errors. cbv zeta.
  destruct (optional_str 1 200 (in_project_name json));
    [| right; split; [discriminate | reflexivity]].
  destruct (optional_str 1 2000 (in_description json));
    [| right; split; [discriminate | reflexivity]].
  destruct (optional_str 0 100 (in_industry json));
    [| right; split; [discriminate | reflexivity]].
  destruct (optional_date (in_start_date json));
    [| right; split; [discriminate | reflexivity]].
  destruct (end_date_field _ _);
    [| right; split; [discriminate | reflexivity]].
  destruct (optional_str 0 500 (in_tools_used json));
    [| right; split; [discriminate | reflexivity]].
  destruct (optional_str 0 100 (in_role json));
    [| right; split; [discriminate | reflexivity]].
  destruct (optional_str 0 200 (in_client_organization json));
    [| right; split; [discriminate | reflexivity]].
  destruct (optional_str 0 1000 (in_client_description json));
    [| right; split; [discriminate | reflexivity]].
  left. split; [reflexivity | eexists; reflexivity].
Qed.

Lemma out_of_bounds_len f s lo hi :
  out_of_bounds f s → bounds f = Some (lo, hi) → len_between lo hi s = false.
Proof.
  intros (lo' & hi' & Hb' & Hlen) Hb. rewrite Hb in Hb'. injection Hb' as <- <-.
  unfold len_between. apply andb_false_iff.
  destruct Hlen as [H | H]; [left | right]; apply Nat.leb_gt; exact H.
Qed.

Lemma err_None {A} f : err f (@None A) = [field_name f].
Proof. reflexivity. Qed.

Lemma out_of_bounds_create_error f s json :
  payload_text f json = JVal s → out_of_bounds f s →
  field_name f ∈ create_errors json.
Proof.
  intros Hp Hout. unfold create_errors. cbv zeta.
  destruct f; simpl in Hp;
    try (destruct Hout as (lo & hi & Hb & _); discriminate Hb);
    [ pose proof (out_of_bounds_len _ _ 1%nat 200%nat Hout eq_refl) as E
    | pose proof (out_of_bounds_len _ _ 1%nat 2000%nat Hout eq_refl) as E
    | pose proof (out_of_bounds_len _ _ 0%nat 100%nat Hout eq_refl) as E
    | pose proof (out_of_bounds_len _ _ 0%nat 500%nat Hout eq_refl) as E
    | pose proof (out_of_bounds_len _ _ 0%nat 100%nat Hout eq_refl) as E
    | pose proof (out_of_bounds_len _ _ 0%nat 200%nat Hout eq_refl) as E
    | pose proof (out_of_bounds_len _ _ 0%nat 1000%nat Hout eq_refl) as E ];
    rewrite Hp; unfold optional_str; cbn [required_str optional];
    rewrite E, err_None;
    repeat first [ apply list_elem_of_singleton; reflexivity
                 | apply elem_of_app; left; apply list_elem_of_singleton; reflexivity
                 | apply elem_of_app; right ].
Qed.

Lemma out_of_bounds_update_error f s json :
  payload_text f json = JVal s → out_of_bounds f s →
  field_name f ∈ update_errors json.
Proof.
  intros Hp Hout. unfold update_errors. cbv zeta.
  destruct f; simpl in Hp;
    try (destruct Hout as (lo & hi & Hb & _); discriminate Hb);
    [ pose proof (out_of_bounds_len _ _ 1%nat 200%nat Hout eq_refl) as E
    | pose proof (out_of_bounds_len _ _ 1%nat 2000%nat Hout eq_refl) as E
    | pose proof (out_of_bounds_len _ _ 0%nat 100%nat Hout eq_refl) as E
    | pose proof (out_of_bounds_len _ _ 0%nat 500%nat Hout eq_refl) as E
    | pose proof (out_of_bounds_len _ _ 0%nat 100%nat Hout eq_refl) as E
    | pose proof (out_of_bounds_len _ _ 0%nat 200%nat Hout eq_refl) as E
    | pose proof (out_of_bounds_len _ _ 0%nat 1000%nat Hout eq_refl) as E ];
    rewrite Hp; unfold optional_str; cbn [optional];
    rewrite E, err_None;
    repeat first [ apply list_elem_of_singleton; reflexivity
                 | apply elem_of_app; left; apply list_elem_of_singleton; reflexivity
                 | apply elem_of_app; right ].
Qed.

(** X2. A create or update payload that gives a text field a value whose
    length breaks the bounds of that field is refused with 422, the
    failure names the field, and the database is as before -- for an
    update, whether or not the id exists. *)
Theorem out_of_bounds_text_is_refused (now pid : Z) (json : Payload) (db : Db)
    (f : field) (s : string) :
  payload_text f json = JVal s →
  out_of_bounds f s →
  (∃ errs, serve now (POST_projects json) db
           = (mkResponse 422 (Json_validation_errors errs), db)
           ∧ field_name f ∈ errs)
  ∧ (∃ errs, serve now (PUT_project pid json) db
             = (mkResponse 422 (Json_validation_errors errs), db)
             ∧ field_name f ∈ errs).
Proof.
  intros Hp Hout. split.
  - pose proof (out_of_bounds_create_error f s json Hp Hout) as Hin.
    destruct (ProjectBase_validate_cases json) as [[E _] | [_ Hv]].
    + rewrite E in Hin. apply elem_of_nil in Hin. contradiction.
    + exists (create_errors json). split; [| exact Hin].
      unfold serve, ProjectCreate_validate. rewrite Hv. reflexivity.
  - pose proof (out_of_bounds_update_error f s json Hp Hout) as Hin.
    destruct (ProjectUpdate_validate_cases json) as [[E _] | [_ Hv]].
    + rewrite E in Hin. apply elem_of_nil in Hin. contradiction.
    + exists (update_errors json). split; [| exact Hin].
      unfold serve. rewrite Hv. reflexivity.
Qed.

Lemma out_of_bounds_text_is_refused_witness :
  (∃ errs, serve 0 (POST_projects (mkPayload (JVal "") (JVal "Empty name") Absent
                      Absent Absent Absent Absent Absent Absent)) empty_db
           = (mkResponse 422 (Json_validation_errors errs), empty_db)
           ∧ "project_name" ∈ errs)
  ∧ (∃ errs, serve 0 (PUT_project 7 (mkPayload (JVal "") (JVal "Empty name") Absent
                        Absent Absent Absent Absent Absent Absent)) empty_db
             = (mkResponse 422 (Json_validation_errors errs), empty_db)
             ∧ "project_name" ∈ errs).
Proof.
  apply (out_of_bounds_text_is_refused 0 7 _ empty_db F_project_name "").
  - reflexivity.
  - exists 1%nat, 200%nat. split; [reflexivity | left; simpl; lia].
Defined.

(** X3. An update payload in which both dates are present and
    [end_date < start_date] is refused with 422 naming [end_date],
    whatever the other fields hold and whether or not the id exists; the
    database is as before. *)
Theorem update_rejects_inverted_dates (now pid : Z) (json : Payload) (db : Db)
    (sd ed : date) :
  in_start_date json = JVal sd →
  in_end_date json = JVal ed →
  date_ltb ed sd = true →
  ∃ errs,
    serve now (PUT_project pid json) db
    = (mkResponse 422 (Json_validation_errors errs), db)
    ∧ "end_date" ∈ errs.
Proof.
  intros Hs He Hlt.
  assert (Hin : "end_date" ∈ update_errors json).
  { unfold update_errors. cbv zeta. rewrite Hs, He.
    cbn [optional_date optional]. rewrite (end_date_field_inverted _ _ Hlt), err_None.
    do 4 (apply elem_of_app; right). apply elem_of_app; left.
    apply list_elem_of_singleton. reflexivity. }
  destruct (ProjectUpdate_validate_cases json) as [[E _] | [_ Hv]].
  - rewrite E in Hin. apply elem_of_nil in Hin. contradiction.
  - exists (update_errors json). split; [| exact Hin].
    unfold serve. rewrite Hv. reflexivity.
Qed.

Lemma update_rejects_inverted_dates_witness :
  ∃ errs,
    serve 0 (PUT_project 1 (mkPayload Absent Absent Absent
                              (JVal (mkdate 2024 6 30)) (JVal (mkdate 2024 1 1))
                              Absent Absent Absent Absent)) Samples.db_P
    = (mkResponse 422 (Json_validation_errors errs), Samples.db_P)
    ∧ "end_date" ∈ errs.
Proof.
  apply (update_rejects_inverted_dates 0 1 _ Samples.db_P
           (mkdate 2024 6 30) (mkdate 2024 1 1)); reflexivity.
Defined.

End RequestValidation.

Section CreateAndRead.
Import Models Sqlite DbUtils Routes Api Vocabulary Contract.

Lemma required_str_given lo hi x s : required_str lo hi x = Some s → given x = Some s.
Proof.
  destruct x as [| | t |]; simpl; try discriminate.
  destruct (len_between lo hi t); congruence.
Qed.

Lemma optional_given {A} (ok : A -> bool) x a :
  optional ok x = Some a → setting_value a = given x.
Proof.
  destruct x as [| | t |]; simpl; try discriminate;
    try (intros [= <-]; reflexivity).
  destruct (ok t); [intros [= <-]; reflexivity | discriminate].
Qed.

Lemma end_date_field_given x st a :
  end_date_field x st = Some a → setting_value a = given x.
Proof.
  unfold end_date_field. destruct x as [| | e |]; simpl; try discriminate;
    try (intros [= <-]; reflexivity).
  destruct (data_get_start_date st) as [s |]; simpl;
    [destruct (date_ltb e s); [discriminate |] |];
    intros [= <-]; reflexivity.
Qed.

(** The row stored for a validated create payload holds, field by field,
    what the payload gave. *)
Lemma created_row_values json p now :
  ProjectCreate_validate json = inr p →
  ∀ f, get_field f (schema_new_row now p) = payload_value f json.
Proof.
  unfold ProjectCreate_validate, ProjectBase_validate.
  destruct (required_str 1 200 (in_project_name json)) eqn:E1; [| discriminate].
  destruct (required_str 1 2000 (in_description json)) eqn:E2; [| discriminate].
  destruct (optional_str 0 100 (in_industry json)) eqn:E3; [| discriminate].
  destruct (optional_date (in_start_date json)) eqn:E4; [| discriminate].
  destruct (end_date_field _ _) eqn:E5; [| discriminate].
  destruct (optional_str 0 500 (in_tools_used json)) eqn:E6; [| discriminate].
  destruct (optional_str 0 100 (in_role json)) eqn:E7; [| discriminate].
  destruct (optional_str 0 200 (in_client_organization json)) eqn:E8; [| discriminate].
  destruct (optional_str 0 1000 (in_client_description json)) eqn:E9; [| discriminate].
  intros [= <-] f.
  apply required_str_given in E1, E2.
  apply optional_given in E3, E4, E6, E7, E8, E9.
  apply end_date_field_given in E5.
  destruct f; simpl;
    first [ rewrite E1; reflexivity | rewrite E2; reflexivity | congruence ].
Qed.

Lemma create_project_run json p now db :
  ProjectCreate_validate json = inr p →
  ∃ j, serve now (POST_projects json) db
       = (mkResponse 201
            (Json_project
               (to_response (mkProject (schema_next_id (table db))
                               (schema_new_row now p)))),
          mkDb (<[schema_next_id (table db) := schema_new_row now p]> (table db)) j).
Proof.
  intros Hv. unfold serve. rewrite Hv.
  unfold create_project, guarded. unfold bind at 1.
  unfold execute_query. cbn [execute table]. unfold bind at 1.
  rewrite fetch_one_by_id. cbn [table]. rewrite lookup_insert_eq.
  cbn [fmap option_fmap option_map].
  rewrite (ProjectResponse_new_presentable _ _
             (created_row_presentable json p now _ Hv)).
  eexists. reflexivity.
Qed.

Lemma get_project_present pid db r :
  table db !! pid = Some r →
  presentable (mkProject pid r) →
  fst (get_project pid db) = Return (to_response (mkProject pid r)).
Proof.
  intros Hr Hp. unfold get_project, guarded, bind.
  rewrite fetch_one_by_id, Hr. cbn [fmap option_fmap option_map].
  rewrite (ProjectResponse_new_presentable _ _ Hp). reflexivity.
Qed.

Lemma get_project_unpresentable pid db r :
  table db !! pid = Some r →
  ¬ presentable (mkProject pid r) →
  fst (get_project pid db) = Raise (HTTPException 500 Database_error).
Proof.
  intros Hr Hp. unfold get_project, guarded, bind.
  rewrite fetch_one_by_id, Hr. cbn [fmap option_fmap option_map].
  unfold ProjectResponse_new.
  destruct (ProjectResponse_validate (mkProject pid r)) as [errs | x] eqn:E.
  - reflexivity.
  - exfalso. apply Hp. exists x. exact E.
Qed.

Lemma fst_reply {A} success (render : A -> content) (r : outcome A * Db) :
  fst (reply success render r)
  = match fst r with
    | Return a => mkResponse success (render a)
    | Raise (HTTPException s d) => mkResponse s (Json_detail d)
    | Raise _ => mkResponse 500 (Json_detail Database_error)
    end.
Proof. destruct r as [[a | [s d | l | | |]] db]; reflexivity. Qed.

(** X4. A create whose payload validates is answered 201 under a key
    that was not in use; the stored row holds the payload's values field
    by field, every other row is as before, and a fetch of the new id is
    answered 200 with the very body of the 201. *)
Theorem create_then_get (now : Z) (json : Payload) (p : ProjectCreate) (db : Db) :
  ProjectCreate_validate json = inr p →
  let out := serve now (POST_projects json) db in
  ∃ new r,
    table db !! new = None
    ∧ table (snd out) !! new = Some r
    ∧ (∀ f, get_field f r = payload_value f json)
    ∧ (∀ i, i ≠ new → table (snd out) !! i = table db !! i)
    ∧ fst out = mkResponse 201 (Json_project (to_response (mkProject new r)))
    ∧ ∀ now', fst (serve now' (GET_project new) (snd out))
              = mkResponse 200 (Json_project (to_response (mkProject new r))).
Proof.
  intros Hv out. subst out.
  destruct (create_project_run json p now db Hv) as [j Hrun]. rewrite Hrun.
  exists (schema_next_id (table db)), (schema_new_row now p). cbn [fst snd table].
  split; [apply schema_next_id_fresh |].
  split; [apply lookup_insert_eq |].
  split; [apply (created_row_values json p now Hv) |].
  split; [intros i Hi; apply lookup_insert_ne; congruence |].
  split; [reflexivity |].
  intros now'. unfold serve. rewrite fst_reply.
  rewrite (get_project_present _ _ (schema_new_row now p)).
  - reflexivity.
  - apply lookup_insert_eq.
  - apply (created_row_presentable json p now _ Hv).
Qed.

Lemma create_then_get_witness :
  let out := serve 100 (POST_projects Samples.body_P) empty_db in
  ∃ new r,
    table empty_db !! new = None
    ∧ table (snd out) !! new = Some r
    ∧ (∀ f, get_field f r = payload_value f Samples.body_P)
    ∧ (∀ i, i ≠ new → table (snd out) !! i = table empty_db !! i)
    ∧ fst out = mkResponse 201 (Json_project (to_response (mkProject new r)))
    ∧ ∀ now', fst (serve now' (GET_project new) (snd out))
              = mkResponse 200 (Json_project (to_response (mkProject new r))).
Proof.
  apply (create_then_get 100 Samples.body_P
           (mkProjectBase "P" "D" None (Some Samples.d_2024_06_30) None
              None None None None) empty_db).
  reflexivity.
Defined.



(** X6. The three read endpoints never change the table, whatever they
    answer. *)
Theorem reads_never_write (now : Z) (req : request) (db : Db) :
  is_read req = true → table (snd (serve now req db)) = table db.
Proof.
  destruct req as [json | q | pid | pid json | pid |]; try discriminate; intros _;
    unfold serve; rewrite reply_state.
  - apply list_projects_table.
  - apply get_project_table.
  - rewrite get_filter_options_run. reflexivity.
Qed.

Lemma reads_never_write_witness :
  table (snd (serve 0 (GET_project 1) Samples.db_P_inverted))
  = table Samples.db_P_inverted.
Proof. apply (reads_never_write 0 (GET_project 1) Samples.db_P_inverted). reflexivity. Defined.

End CreateAndRead.

Section ListContract.
Import Models Sqlite DbUtils Routes Api Vocabulary Contract.

(** ** The ORDER BY clause *)

Lemma column_of_valid_sort_field sort_by :
  sort_by ∈ valid_sort_fields → ∃ k, column sort_by = Some k.
Proof.
  unfold valid_sort_fields. intros H.
  repeat (apply elem_of_cons in H as [-> | H]; [eexists; reflexivity |]).
  apply elem_of_nil in H. contradiction.
Qed.

(** A character whose lower case is one of [a s c d e] has the matching
    capital as its upper case. *)
Lemma upper_of_lower_letter (c t : ascii) :
  t ∈ ["a"; "s"; "c"; "d"; "e"]%char →
  Text.py_lower_char c = t →
  Text.py_upper_char c = Text.py_upper_char t.
Proof.
  intros Ht.
  repeat (apply elem_of_cons in Ht as [-> | Ht];
          [destruct c as [[] [] [] [] [] [] [] []]; vm_compute; intros H;
             first [reflexivity | discriminate H] |]).
  apply elem_of_nil in Ht. contradiction.
Qed.

Lemma upper_of_lower_order order :
  (Text.lower order = "asc" → Text.upper order = "ASC")
  ∧ (Text.lower order = "desc" → Text.upper order = "DESC").
Proof.
  split.
  - destruct order as [| c1 [| c2 [| c3 [| c4 o]]]]; try discriminate.
    intros [= H1 H2 H3]. unfold Text.upper. cbn [Text.smap].
    rewrite (upper_of_lower_letter c1 "a"), (upper_of_lower_letter c2 "s"),
      (upper_of_lower_letter c3 "c"); try assumption; try reflexivity.
    all: repeat first [apply list_elem_of_here | apply list_elem_of_further].
  - destruct order as [| c1 [| c2 [| c3 [| c4 [| c5 o]]]]]; try discriminate.
    intros [= H1 H2 H3 H4]. unfold Text.upper. cbn [Text.smap].
    rewrite (upper_of_lower_letter c1 "d"), (upper_of_lower_letter c2 "e"),
      (upper_of_lower_letter c3 "s"), (upper_of_lower_letter c4 "c");
      try assumption; try reflexivity.
    all: repeat first [apply list_elem_of_here | apply list_elem_of_further].
Qed.

Lemma direction_of_checked_order order :
  Text.lower order ∈ ["asc"; "desc"] →
  Text.upper order ∈ ["ASC"; "DESC"]
  ∧ direction (Text.upper order) = Some (bool_decide (Text.lower order = "desc")).
Proof.
  intros H. destruct (upper_of_lower_order order) as [Ha Hd].
  apply elem_of_cons in H as [H | H].
  - rewrite (Ha H), H. split; [apply list_elem_of_here | reflexivity].
  - apply list_elem_of_singleton in H.
    rewrite (Hd H), H. split; [apply list_elem_of_further, list_elem_of_here | reflexivity].
Qed.

(** ** The order relation *)

Lemma date_ltb_asym a b : date_ltb a b = true → date_ltb b a = false.
Proof.
  unfold date_ltb. destruct a as [y1 m1 d1], b as [y2 m2 d2]; simpl.
  rewrite !orb_true_iff, !andb_true_iff, !orb_true_iff, !andb_true_iff.
  rewrite !Z.ltb_lt, !Z.eqb_eq. intros H.
  apply not_true_is_false. 
  rewrite !orb_true_iff, !andb_true_iff, !orb_true_iff, !andb_true_iff.
  rewrite !Z.ltb_lt, !Z.eqb_eq. lia.
Qed.

Lemma key_leb_total a b : key_leb a b = true ∨ key_leb b a = true.
Proof.
  destruct a as [| x | x | x], b as [| y | y | y]; simpl; auto.
  - rewrite !Z.leb_le. lia.
  - apply String.leb_total.
  - unfold date_leb. destruct (date_ltb y x) eqn:E; [right | left; reflexivity].
    rewrite (date_ltb_asym _ _ E). reflexivity.
Qed.

Global Instance ordered_total k descending : Total (ordered k descending).
Proof.
  intros a b. unfold ordered. destruct descending.
  - destruct (key_leb_total (k b) (k a)); auto.
  - apply key_leb_total.
Qed.

(** ** The WHERE clause *)

Lemma on_text_eq o s :
  on_text o (fun x => String.eqb x s) = bool_decide (o = Some s).
Proof.
  destruct o as [x |]; unfold on_text.
  - destruct (String.eqb_spec x s) as [-> | Hne]; symmetry;
      [apply bool_decide_eq_true_2; reflexivity
      | apply bool_decide_eq_false_2; congruence].
  - symmetry. apply bool_decide_eq_false_2. discriminate.
Qed.

Lemma forallb_if_text r x mk test :
  (∀ s, holds r (mk s) = test s) →
  forallb (holds r) (if_text x mk) = text_filter x test.
Proof.
  intros H. destruct x as [s |]; simpl; [| reflexivity].
  destruct (Text.is_empty s); simpl; [reflexivity |].
  rewrite H. apply andb_true_r.
Qed.

Lemma forallb_if_date r x mk test :
  (∀ d, holds r (mk d) = test d) →
  forallb (holds r) (if_date x mk) = date_filter x test.
Proof.
  intros H. destruct x as [d |]; simpl; [| reflexivity].
  rewrite H. apply andb_true_r.
Qed.

Lemma where_is_matches q r :
  forallb (holds r)
    (if_text (q_industry q) industry_eq
     ++ if_text (q_client q) client_organization_eq
     ++ if_text (q_tools q) (fun x => tools_used_like ("%" ++ x ++ "%")%string)
     ++ if_date (q_start_after q) start_date_ge
     ++ if_date (q_end_before q) end_date_le)
  = matches q r.
Proof.
  unfold matches. rewrite !forallb_app, !andb_assoc.
  rewrite (forallb_if_text r (q_industry q) industry_eq
             (fun s => bool_decide (industry r = Some s)))
    by (intros s; apply on_text_eq).
  rewrite (forallb_if_text r (q_client q) client_organization_eq
             (fun s => bool_decide (client_organization r = Some s)))
    by (intros s; apply on_text_eq).
  rewrite (forallb_if_text r (q_tools q) _
             (fun s => on_text (tools_used r) (Text.like ("%" ++ s ++ "%")%string)))
    by reflexivity.
  rewrite (forallb_if_date r (q_start_after q) start_date_ge
             (fun d => on_date (start_date r) (date_leb d))) by reflexivity.
  rewrite (forallb_if_date r (q_end_before q) end_date_le
             (fun d => on_date (end_date r) (fun x => date_leb x d))) by reflexivity.
  reflexivity.
Qed.

(** ** The handler on parameters that pass its two checks *)

Lemma GET_projects_run now q db k :
  sort_by_of q ∈ valid_sort_fields →
  Text.lower (order_of q) ∈ ["asc"; "desc"] →
  column (sort_by_of q) = Some k →
  (∀ p, p ∈ rows (table db) → matches q (cols p) = true → presentable p) →
  fst (serve now (GET_projects q) db)
  = mkResponse 200
      (Json_projects
         (to_response <$>
            merge_sort (ordered k (descending q))
              (filter (fun p => matches q (cols p) = true) (rows (table db))))).
Proof.
  intros Hs Ho Hk Hok.
  destruct (direction_of_checked_order _ Ho) as [_ Hd].
  unfold serve.
  rewrite (list_projects_run _ _ _ _ _ _ _ k _ db Hs Ho Hk Hd). cbv zeta.
  rewrite (list_filter_iff _ (fun p => matches q (cols p) = true))
    by (intros p; rewrite (where_is_matches q (cols p)); reflexivity).
  unfold guarded. rewrite mapM_presentable; [reflexivity |].
  intros p Hp. rewrite merge_sort_Permutation in Hp.
  apply list_elem_of_filter in Hp as [Hm Hin]. apply Hok; assumption.
Qed.



(** X8. Whatever the query string, the list endpoint either runs no
    statement at all or runs exactly one SELECT whose ORDER BY column is
    one of the eight allowed names and whose direction is ASC or DESC. *)
Theorem list_projects_order_clause_is_safe (now : Z) (q : ListParams) (db : Db) :
  let db' := snd (serve now (GET_projects q) db) in
  journal db' = journal db
  ∨ ∃ where_ sort_by order,
      journal db' = journal db ++ [Query (SELECT_where where_ sort_by order)]
      ∧ sort_by ∈ valid_sort_fields
      ∧ order ∈ ["ASC"; "DESC"].
Proof.
  cbv zeta. unfold serve. rewrite reply_state.
  destruct (decide (sort_by_of q ∈ valid_sort_fields)) as [Hs | Hs];
    [| left; rewrite list_projects_bad_sort_by by exact Hs; reflexivity].
  destruct (decide (Text.lower (order_of q) ∈ ["asc"; "desc"])) as [Ho | Ho];
    [| left; rewrite list_projects_bad_order by assumption; reflexivity].
  right.
  destruct (column_of_valid_sort_field _ Hs) as [k Hk].
  destruct (direction_of_checked_order _ Ho) as [Hu Hd].
  rewrite (list_projects_run _ _ _ _ _ _ _ k _ db Hs Ho Hk Hd). cbv zeta.
  do 3 eexists. split; [| split; [exact Hs | exact Hu]].
  unfold guarded.
  match goal with
  | |- context [mapM ProjectResponse_new ?l ?d] =>
      pose proof (mapM_ProjectResponse_new_state l d) as Hst;
      destruct (mapM ProjectResponse_new l d) as [[xs | [s e | fs | | |]] d'];
      simpl in Hst; subst d'; reflexivity
  end.
Qed.

(** ** Wildcards in the tools filter *)

Lemma like_any s : Text.like "%%%" s = true.
Proof.
  assert (H2 : ∀ t, Text.like "%%" t = true).
  { intros t. rewrite like_percent_unfold, like_percent_only. reflexivity. }
  rewrite like_percent_unfold, H2. reflexivity.
Qed.

Lemma like_one s : Text.like "%_%" s = negb (Text.is_empty s).
Proof.
  destruct s as [| c s]; [reflexivity |].
  rewrite like_percent_unfold.
  change (Text.like "_%" (String c s)) with (true && Text.like "%" s).
  rewrite like_percent_only. reflexivity.
Qed.

Lemma matches_tools_only X r :
  Text.is_empty X = false →
  matches (tools_only X) r
  = on_text (tools_used r) (Text.like ("%" ++ X ++ "%")%string).
Proof.
  intros E. unfold matches, tools_only.
  cbn [q_industry q_client q_tools q_start_after q_end_before text_filter
       date_filter].
  rewrite E. cbn [andb]. rewrite !andb_true_r. reflexivity.
Qed.

(** X9. The tools filter does not escape the LIKE wildcards: [tools=%]
    selects every record whose [tools_used] is not NULL, and [tools=_]
    every record whose [tools_used] is a non-empty text (given that the
    selected records pass the response model). *)
Theorem tools_filter_wildcards (now : Z) (db : Db) :
  (∀ p, p ∈ rows (table db) → tools_used (cols p) ≠ None → presentable p) →
  selects_exactly (fst (serve now (GET_projects (tools_only "%")) db)) (table db)
    (fun r => on_text (tools_used r) (fun _ => true))
  ∧ selects_exactly (fst (serve now (GET_projects (tools_only "_")) db)) (table db)
      (fun r => on_text (tools_used r) (fun s => negb (Text.is_empty s))).
Proof.
  intros Hok. split.
  - eexists. split.
    + apply (GET_projects_run now (tools_only "%") db
               (fun p => KInt (created_at (cols p)))).
      * vm_compute. do 6 apply list_elem_of_further. apply list_elem_of_here.
      * vm_compute. apply list_elem_of_further, list_elem_of_here.
      * reflexivity.
      * intros p Hin Hm. apply Hok; [exact Hin |].
        rewrite matches_tools_only in Hm by reflexivity.
        destruct (tools_used (cols p)); [discriminate | discriminate Hm].
    + rewrite merge_sort_Permutation.
      erewrite list_filter_iff; [reflexivity |].
      intros p. rewrite matches_tools_only by reflexivity.
      destruct (tools_used (cols p)) as [s |]; unfold on_text; [| reflexivity].
      change ("%" ++ "%" ++ "%")%string with "%%%".
      rewrite like_any. reflexivity.
  - eexists. split.
    + apply (GET_projects_run now (tools_only "_") db
               (fun p => KInt (created_at (cols p)))).
      * vm_compute. do 6 apply list_elem_of_further. apply list_elem_of_here.
      * vm_compute. apply list_elem_of_further, list_elem_of_here.
      * reflexivity.
      * intros p Hin Hm. apply Hok; [exact Hin |].
        rewrite matches_tools_only in Hm by reflexivity.
        destruct (tools_used (cols p)); [discriminate | discriminate Hm].
    + rewrite merge_sort_Permutation.
      erewrite list_filter_iff; [reflexivity |].
      intros p. rewrite matches_tools_only by reflexivity.
      destruct (tools_used (cols p)) as [s |]; unfold on_text; [| reflexivity].
      change ("%" ++ "_" ++ "%")%string with "%_%".
      rewrite like_one. reflexivity.
Qed.

Lemma tools_filter_wildcards_witness :
  selects_exactly (fst (serve 0 (GET_projects (tools_only "%")) Samples.db_python))
    (table Samples.db_python) (fun r => on_text (tools_used r) (fun _ => true))
  ∧ selects_exactly (fst (serve 0 (GET_projects (tools_only "_")) Samples.db_python))
      (table Samples.db_python)
      (fun r => on_text (tools_used r) (fun s => negb (Text.is_empty s))).
Proof.
  apply (tools_filter_wildcards 0 Samples.db_python).
  intros p Hp _. apply elem_of_rows in Hp. destruct p as [i r].
  cbn [id cols] in Hp. unfold Samples.db_python in Hp. cbn [table] in Hp.
  apply lookup_singleton_Some in Hp as [<- <-].
  eexists. vm_compute. reflexivity.
Defined.

End ListContract.

Section UpdateContract.
Import Models Sqlite DbUtils Routes Api Vocabulary Contract.

Lemma update_project_absent now pid u db :
  table db !! pid = None →
  update_project now pid u db
  = (Raise (HTTPException 404 (Project_not_found pid)),
     mkDb (table db) (logged (Query (SELECT_by_id pid)) db)).
Proof.
  intros H. unfold update_project, guarded. unfold bind at 1.
  rewrite fetch_one_by_id, H. reflexivity.
Qed.



(** What [guarded (ProjectResponse_new p)] gives. *)
Lemma guarded_ProjectResponse_new_cases p db :
  (presentable p
   ∧ guarded (ProjectResponse_new p) db = (Return (to_response p), db))
  ∨ (¬ presentable p
     ∧ guarded (ProjectResponse_new p) db
       = (Raise (HTTPException 500 Database_error), db)).
Proof.
  unfold guarded, ProjectResponse_new.
  destruct (ProjectResponse_validate p) as [errs | x] eqn:E.
  - right. split; [| reflexivity]. intros [y Hy]. congruence.
  - left. split; [exists x; exact E |].
    rewrite (ProjectResponse_validate_value _ _ E). reflexivity.
Qed.

(** The outcome of an update and the row it leaves, by cases. *)
Lemma PUT_project_cases now pid json db :
  let out := serve now (PUT_project pid json) db in
  (status (fst out) ∈ [404; 422; 500])
  ∨ ∃ r', table (snd out) !! pid = Some r'
          ∧ presentable (mkProject pid r')
          ∧ fst out = mkResponse 200 (Json_project (to_response (mkProject pid r'))).
Proof.
  cbv zeta. unfold serve.
  destruct (ProjectUpdate_validate json) as [errs | u] eqn:Hv.
  { left. simpl. apply list_elem_of_further, list_elem_of_here. }
  destruct (table db !! pid) as [r |] eqn:Hr.
  2:{ left. rewrite (update_project_absent now pid u db Hr). simpl.
      apply list_elem_of_here. }
  destruct (model_dump_exclude_unset u) as [| a l] eqn:Ed.
  - assert (E : update_project now pid u db
                = guarded (ProjectResponse_new (mkProject pid r))
                    (mkDb (table db) (logged (Query (SELECT_by_id pid)) db))).
    { unfold update_project, guarded. unfold bind at 1.
      rewrite fetch_one_by_id, Hr. cbn [fmap option_fmap option_map].
      rewrite Ed. reflexivity. }
    rewrite E.
    destruct (guarded_ProjectResponse_new_cases (mkProject pid r)
                (mkDb (table db) (logged (Query (SELECT_by_id pid)) db)))
      as [[Hp ->] | [Hp ->]].
    + right. exists r. split; [exact Hr |]. split; [exact Hp | reflexivity].
    + left. simpl. do 2 apply list_elem_of_further. apply list_elem_of_here.
  - destruct (update_project_run now pid u db r Hr) as [j Hrun];
      [rewrite Ed; discriminate |].
    rewrite Hrun, Ed.
    destruct (apply_assignments (a :: l) r) as [r1 |].
    + match goal with
      | |- context [guarded (ProjectResponse_new ?p) ?d] =>
          destruct (guarded_ProjectResponse_new_cases p d) as [[Hp ->] | [Hp ->]]
      end.
      * right. eexists. split; [apply lookup_insert_eq |].
        split; [exact Hp | reflexivity].
      * left. simpl. do 2 apply list_elem_of_further. apply list_elem_of_here.
    + left. simpl. do 2 apply list_elem_of_further. apply list_elem_of_here.
Qed.

(** X11. Whenever an update is answered 200, the body is the record as
    it is stored after the request, and a fetch of the id is answered
    with that very response. *)
Theorem update_200_is_the_stored_record (now pid : Z) (json : Payload) (db : Db) :
  let out := serve now (PUT_project pid json) db in
  status (fst out) = 200 →
  ∃ r', table (snd out) !! pid = Some r'
        ∧ fst out = mkResponse 200 (Json_project (to_response (mkProject pid r')))
        ∧ ∀ now', fst (serve now' (GET_project pid) (snd out)) = fst out.
Proof.
  intros out Hst. subst out.
  destruct (PUT_project_cases now pid json db) as [Hbad | (r' & Hr' & Hp & Hresp)].
  - rewrite Hst in Hbad.
    repeat (apply elem_of_cons in Hbad as [Hbad | Hbad]; [discriminate Hbad |]).
    apply elem_of_nil in Hbad. contradiction.
  - exists r'. split; [exact Hr' |]. split; [exact Hresp |].
    intros now'. rewrite Hresp. unfold serve at 1. rewrite fst_reply.
    rewrite (get_project_present pid _ r' Hr' Hp). reflexivity.
Qed.

Lemma update_200_is_the_stored_record_witness :
  let out := serve 200 (PUT_project 1 Samples.body_industry) Samples.db_P in
  ∃ r', table (snd out) !! 1 = Some r'
        ∧ fst out = mkResponse 200 (Json_project (to_response (mkProject 1 r')))
        ∧ ∀ now', fst (serve now' (GET_project 1) (snd out)) = fst out.
Proof.
  apply (update_200_is_the_stored_record 200 1 Samples.body_industry Samples.db_P).
  reflexivity.
Defined.

End UpdateContract.

Section BoundsInvariant.
Import Models Sqlite DbUtils Routes Api Vocabulary Contract.

Lemma optional_str_SetTo_within lo hi x v :
  optional_str lo hi x = Some (SetTo v) →
  match v with Some t => len_between lo hi t | None => true end = true.
Proof.
  destruct x as [| | t |]; simpl; try discriminate.
  - intros [= <-]. reflexivity.
  - destruct (len_between lo hi t) eqn:E; [| discriminate].
    intros [= <-]. exact E.
Qed.

Lemma elem_of_dump {A} (mk : option A -> assignment) (s : setting A) a :
  a ∈ dump mk s → ∃ v, s = SetTo v ∧ a = mk v.
Proof.
  destruct s as [| v]; simpl; intros H.
  - apply elem_of_nil in H. contradiction.
  - apply list_elem_of_singleton in H. eauto.
Qed.

(** Every assignment of a validated update respects the bounds of its
    field. *)
Lemma validated_update_within json u :
  ProjectUpdate_validate json = inr u →
  ∀ a, a ∈ model_dump_exclude_unset u →
       within (assigned_field a) (assigned_value a) = true.
Proof.
  unfold ProjectUpdate_validate.
  destruct (optional_str 1 200 (in_project_name json)) as [a1 |] eqn:E1; [| discriminate].
  destruct (optional_str 1 2000 (in_description json)) as [a2 |] eqn:E2; [| discriminate].
  destruct (optional_str 0 100 (in_industry json)) as [a3 |] eqn:E3; [| discriminate].
  destruct (optional_date (in_start_date json)) as [a4 |] eqn:E4; [| discriminate].
  destruct (end_date_field _ _) as [a5 |] eqn:E5; [| discriminate].
  destruct (optional_str 0 500 (in_tools_used json)) as [a6 |] eqn:E6; [| discriminate].
  destruct (optional_str 0 100 (in_role json)) as [a7 |] eqn:E7; [| discriminate].
  destruct (optional_str 0 200 (in_client_organization json)) as [a8 |] eqn:E8;
    [| discriminate].
  destruct (optional_str 0 1000 (in_client_description json)) as [a9 |] eqn:E9;
    [| discriminate].
  intros [= <-] a. unfold model_dump_exclude_unset.
  cbn [u_project_name u_description u_industry u_start_date u_end_date
       u_tools_used u_role u_client_organization u_client_description].
  rewrite !elem_of_app.
  intros [H | [H | [H | [H | [H | [H | [H | [H | H]]]]]]]];
    apply elem_of_dump in H as (v & -> & ->); cbn [assigned_field assigned_value].
  - apply optional_str_SetTo_within in E1.
    rewrite (within_of_str F_project_name 1 200 v eq_refl). exact E1.
  - apply optional_str_SetTo_within in E2.
    rewrite (within_of_str F_description 1 2000 v eq_refl). exact E2.
  - apply optional_str_SetTo_within in E3.
    rewrite (within_of_str F_industry 0 100 v eq_refl). exact E3.
  - destruct v; reflexivity.
  - destruct v; reflexivity.
  - apply optional_str_SetTo_within in E6.
    rewrite (within_of_str F_tools_used 0 500 v eq_refl). exact E6.
  - apply optional_str_SetTo_within in E7.
    rewrite (within_of_str F_role 0 100 v eq_refl). exact E7.
  - apply optional_str_SetTo_within in E8.
    rewrite (within_of_str F_client_organization 0 200 v eq_refl). exact E8.
  - apply optional_str_SetTo_within in E9.
    rewrite (within_of_str F_client_description 0 1000 v eq_refl). exact E9.
Qed.

Lemma apply_assignment_bounded a r r' :
  apply_assignment a r = Some r' →
  within (assigned_field a) (assigned_value a) = true →
  bounded r = true → bounded r' = true.
Proof.
  intros Ha Hw Hb. rewrite bounded_fields in Hb |- *.
  destruct (apply_assignment_spec _ _ _ Ha) as (Hv & Hf & _).
  intros f. destruct (decide (f = assigned_field a)) as [-> | Hne].
  - rewrite Hv. exact Hw.
  - rewrite (Hf f Hne). apply Hb.
Qed.

Lemma apply_assignments_bounded l r r' :
  apply_assignments l r = Some r' →
  (∀ a, a ∈ l → within (assigned_field a) (assigned_value a) = true) →
  bounded r = true → bounded r' = true.
Proof.
  revert r; induction l as [| a l IH]; intros r; simpl.
  - intros [= <-] _ Hb. exact Hb.
  - destruct (apply_assignment a r) as [r1 |] eqn:E; [| discriminate].
    intros H Hw Hb. apply (IH r1 H).
    + intros b Hb'. apply Hw. right. exact Hb'.
    + apply (apply_assignment_bounded a r r1 E); [apply Hw; left | exact Hb].
Qed.

Lemma trigger_bounded now r :
  bounded (schema_update_trigger now r) = bounded r.
Proof. reflexivity. Qed.

Lemma all_bounded_insert (t : gmap Z Row) i r :
  all_bounded t → bounded r = true → all_bounded (<[i := r]> t).
Proof.
  intros Ht Hr j r' Hj. destruct (decide (i = j)) as [-> | Hne].
  - rewrite lookup_insert_eq in Hj. congruence.
  - rewrite lookup_insert_ne in Hj by exact Hne. apply (Ht j r' Hj).
Qed.

(** One request keeps every stored text within its bounds. *)
Lemma serve_keeps_bounds now req db :
  all_bounded (table db) → all_bounded (table (snd (serve now req db))).
Proof.
  intros Hb. destruct req as [json | q | pid | pid json | pid |].
  - destruct (ProjectCreate_validate json) as [errs | p] eqn:Hv.
    + unfold serve. rewrite Hv. exact Hb.
    + destruct (create_project_run json p now db Hv) as [j ->]. cbn [snd table].
      apply all_bounded_insert; [exact Hb |].
      apply (presentable_bounded_ordered
               (mkProject 0 (schema_new_row now p))
               (created_row_presentable json p now 0 Hv)).
  - unfold serve. rewrite reply_state, list_projects_table. exact Hb.
  - unfold serve. rewrite reply_state, get_project_table. exact Hb.
  - unfold serve. destruct (ProjectUpdate_validate json) as [errs | u] eqn:Hv;
      [exact Hb |]. rewrite reply_state.
    destruct (table db !! pid) as [r |] eqn:Hr.
    2:{ rewrite (update_project_absent now pid u db Hr). exact Hb. }
    destruct (model_dump_exclude_unset u) as [| a l] eqn:Ed.
    + rewrite (update_project_nothing_supplied now pid u db Ed). exact Hb.
    + rewrite (update_project_table now pid u db r Hr) by (rewrite Ed; discriminate).
      destruct (apply_assignments (model_dump_exclude_unset u) r) as [r1 |] eqn:Ea;
        [| exact Hb].
      apply all_bounded_insert; [exact Hb |]. rewrite trigger_bounded.
      apply (apply_assignments_bounded _ r r1 Ea).
      * apply (validated_update_within json u Hv).
      * apply (Hb pid r Hr).
  - unfold serve. rewrite reply_state.
    destruct (table db !! pid) as [r |] eqn:Hr.
    + destruct (delete_project_present now pid db r Hr) as [j ->]. cbn [snd table].
      intros i r' Hi. apply lookup_delete_Some in Hi as [_ Hi]. apply (Hb i r' Hi).
    + rewrite (delete_project_absent now pid db Hr). exact Hb.
  - unfold serve. rewrite reply_state, get_filter_options_run. exact Hb.
Qed.

Lemma session_keeps_bounds reqs db :
  all_bounded (table db) → all_bounded (table (snd (session reqs db))).
Proof.
  revert db; induction reqs as [| [now req] reqs IH]; intros db Hb; [exact Hb |].
  simpl. pose proof (serve_keeps_bounds now req db Hb) as H1.
  destruct (serve now req db) as [resp db1]. cbn [snd] in H1.
  specialize (IH db1 H1). destruct (session reqs db1) as [resps db2]. exact IH.
Qed.

(** X12. In every state reached from the empty database by any sequence
    of requests, every stored text respects the bounds of its field; so a
    fetch of an existing id is answered 200 unless the stored dates are
    inverted, in which case it is answered 500. *)
Theorem reachable_rows_are_bounded (reqs : list (Z * request)) (now pid : Z) (r : Row) :
  let db := snd (session reqs empty_db) in
  table db !! pid = Some r →
  bounded r = true
  ∧ (dates_ordered r = true →
     fst (serve now (GET_project pid) db)
     = mkResponse 200 (Json_project (to_response (mkProject pid r))))
  ∧ (dates_ordered r = false →
     fst (serve now (GET_project pid) db)
     = mkResponse 500 (Json_detail Database_error)).
Proof.
  intros db Hr.
  assert (Hb : bounded r = true).
  { apply (session_keeps_bounds reqs empty_db) with (i := pid); [| exact Hr].
    intros i r' Hi. cbn in Hi. rewrite lookup_empty in Hi. discriminate. }
  split; [exact Hb |]. unfold serve. rewrite fst_reply. split; intros Hd.
  - rewrite (get_project_present pid db r Hr); [reflexivity |].
    apply bounded_ordered_presentable; assumption.
  - rewrite (get_project_unpresentable pid db r Hr); [reflexivity |].
    intros Hp. apply presentable_bounded_ordered in Hp as [_ Hd'].
    cbn [cols] in Hd'. congruence.
Qed.

Lemma reachable_rows_are_bounded_witness :
  let db := snd (session [(100, POST_projects Samples.body_P);
                          (200, PUT_project 1 Samples.body_end_only)] empty_db) in
  bounded Samples.row_P_inverted = true
  ∧ fst (serve 300 (GET_project 1) db)
    = mkResponse 500 (Json_detail Database_error).
Proof.
  cbv zeta.
  destruct (reachable_rows_are_bounded
              [(100, POST_projects Samples.body_P);
               (200, PUT_project 1 Samples.body_end_only)] 300 1
              Samples.row_P_inverted) as (Hb & _ & H500).
  - vm_compute. reflexivity.
  - split; [exact Hb | apply H500; reflexivity].
Defined.

End BoundsInvariant.

Section DeleteAndStatuses.
Import Models Sqlite DbUtils Routes Api Vocabulary Contract.

(** X13. Deleting an existing id removes that row and no other, and a
    second delete of the same id is answered 404. *)
Theorem delete_removes_only_that_row (now pid : Z) (db : Db) :
  is_Some (table db !! pid) →
  let db' := snd (serve now (DELETE_project pid) db) in
  table db' !! pid = None
  ∧ (∀ i, i ≠ pid → table db' !! i = table db !! i)
  ∧ ∀ now', fst (serve now' (DELETE_project pid) db')
            = mkResponse 404 (Json_detail (Project_not_found pid)).
Proof.
  intros [r Hr] db'.
  destruct (delete_project_present now pid db r Hr) as [j Hd].
  assert (E : db' = mkDb (delete pid (table db)) j)
    by (subst db'; unfold serve; rewrite Hd; reflexivity).
  rewrite E. clear E db'. cbn [table].
  split; [apply lookup_delete_eq |].
  split; [intros i Hi; apply lookup_delete_ne; congruence |].
  intros now'. unfold serve.
  rewrite (delete_project_absent now' pid (mkDb (delete pid (table db)) j)).
  - reflexivity.
  - apply lookup_delete_eq.
Qed.

Lemma delete_removes_only_that_row_witness :
  let db' := snd (serve 0 (DELETE_project 1) Samples.db_P) in
  table db' !! 1 = None
  ∧ (∀ i, i ≠ 1 → table db' !! i = table Samples.db_P !! i)
  ∧ ∀ now', fst (serve now' (DELETE_project 1) db')
            = mkResponse 404 (Json_detail (Project_not_found 1)).
Proof.
  apply (delete_removes_only_that_row 0 1 Samples.db_P).
  exists Samples.row_P. reflexivity.
Defined.




End DeleteAndStatuses.

Section ToolTokens.
Import Models Sqlite DbUtils Routes Api Vocabulary Contract.

(** ** Pieces between commas hold no comma *)


(** ** Stripping keeps a part of the text and is idempotent *)











End ToolTokens.

Section DateCheckAndOrder.
Import Models Sqlite DbUtils Routes Api Vocabulary Contract.

Lemma end_date_field_None x st :
  end_date_field x st = None
  ↔ x = JBad
    ∨ ∃ sd ed, x = JVal ed ∧ data_get_start_date st = Some sd ∧ date_ltb ed sd = true.
Proof.
  unfold end_date_field. destruct x as [| | e |]; simpl.
  - split; [discriminate |]. intros [H | (sd & ed & H & _)]; discriminate.
  - split; [discriminate |]. intros [H | (sd & ed & H & _)]; discriminate.
  - destruct (data_get_start_date st) as [s |]; simpl.
    + destruct (date_ltb e s) eqn:E.
      * split; [| reflexivity]. intros _. right. exists s, e. auto.
      * split; [discriminate |].
        intros [H | (sd & ed & [= <-] & [= <-] & H)]; congruence.
    + split; [discriminate |].
      intros [H | (sd & ed & _ & H & _)]; discriminate.
  - split; [auto | reflexivity].
Qed.

Lemma data_get_start_date_given x :
  data_get_start_date (optional_date x) = given x.
Proof. destruct x; reflexivity. Qed.

Lemma elem_of_err {A} f g (v : option A) :
  field_name g ∈ err f v ↔ f = g ∧ v = None.
Proof.
  destruct v; simpl.
  - split; [intros H; apply elem_of_nil in H; contradiction | intros [_ H]; discriminate].
  - rewrite list_elem_of_singleton. split.
    + intros H. split; [| reflexivity]. destruct f, g; (reflexivity || discriminate H).
    + intros [-> _]. reflexivity.
Qed.

Lemma end_date_in_errors v1 v2 v3 v4 v5 v6 v7 v8 v9 :
  "end_date" ∈ @err string F_project_name v1 ++ @err string F_description v2
               ++ @err (setting string) F_industry v3
               ++ @err (setting date) F_start_date v4
               ++ @err (setting date) F_end_date v5
               ++ @err (setting string) F_tools_used v6
               ++ @err (setting string) F_role v7
               ++ @err (setting string) F_client_organization v8
               ++ @err (setting string) F_client_description v9
  ↔ v5 = None.
Proof.
  change "end_date" with (field_name F_end_date).
  rewrite !elem_of_app, !elem_of_err. split.
  - intros [[H _] | [[H _] | [[H _] | [[H _] | [[_ H] | [[H _] | [[H _] | [[H _] | [H _]]]]]]]]];
      first [discriminate H | exact H].
  - intros H. do 4 right. left. auto.
Qed.

Lemma end_date_in_create_errors json :
  "end_date" ∈ create_errors json
  ↔ in_end_date json = JBad
    ∨ ∃ sd ed, in_start_date json = JVal sd ∧ in_end_date json = JVal ed
               ∧ date_ltb ed sd = true.
Proof.
  unfold create_errors. cbv zeta.
  rewrite (end_date_in_errors
             (required_str 1 200 (in_project_name json))
             (required_str 1 2000 (in_description json))).
  rewrite end_date_field_None, data_get_start_date_given. split.
  - intros [H | (sd & ed & He & Hs & Hlt)]; [auto |]. right. exists sd, ed.
    split; [| auto]. destruct (in_start_date json); simpl in Hs; congruence.
  - intros [H | (sd & ed & Hs & He & Hlt)]; [auto |]. right. exists sd, ed.
    rewrite Hs. auto.
Qed.

(** X16. A create is refused with [end_date] among the reported fields
    exactly when its [end_date] cannot be read as a date, or both dates
    are given and [end_date < start_date]; in particular an [end_date] is
    never checked against a [start_date] that is absent, null or itself
    unreadable. *)
Theorem end_date_is_reported_iff (now : Z) (json : Payload) (db : Db) :
  (∃ errs, fst (serve now (POST_projects json) db)
           = mkResponse 422 (Json_validation_errors errs)
           ∧ "end_date" ∈ errs)
  ↔ in_end_date json = JBad
    ∨ ∃ sd ed, in_start_date json = JVal sd ∧ in_end_date json = JVal ed
               ∧ date_ltb ed sd = true.
Proof.
  rewrite <- end_date_in_create_errors. unfold serve, ProjectCreate_validate.
  destruct (ProjectBase_validate_cases json) as [[E [p Hv]] | [Hne Hv]]; rewrite Hv.
  - rewrite E. split.
    + intros (errs & Hr & _).
      pose proof (f_equal status Hr) as Hst. rewrite fst_reply in Hst.
      destruct (fst (create_project now p db)) as [x | [s d | | | |]] eqn:Ec;
        simpl in Hst; try discriminate.
      destruct (create_project_run json p now db Hv) as [j Hrun].
      unfold serve, ProjectCreate_validate in Hrun. rewrite Hv in Hrun.
      apply (f_equal fst) in Hrun. rewrite fst_reply, Ec in Hrun. discriminate.
    + intros H. apply elem_of_nil in H. contradiction.
  - cbn [fst]. split.
    + intros (errs & [= <-] & Hin). exact Hin.
    + intros Hin. eauto.
Qed.



(** ** Ordering by name *)




End DateCheckAndOrder.
